(** * gen_version_notes.py: version notes generated from the API registry

    A shallow embedding of [scripts/gen_version_notes.py].  The registry is
    an [xml.etree.ElementTree] tree; the three path queries the script
    issues are embedded as list functions over that tree, the Python string
    operations it uses ([in], [split], slices, [join], f-strings) as
    functions over [string], and the body of [process_xml] as a state
    passing loop in a small exception monad.  Files written and lines
    printed are recorded, in order, in a trace of events. *)

From Stdlib Require Import String Ascii List Arith Lia Bool.
From Stdlib Require Import Decimal DecimalString.
From stdpp Require Import base decidable gmap strings list.

Import ListNotations.

Local Open Scope list_scope.
#[local] Set Warnings "-register-all,-clear-no-such-hyp".

(** ** Python string operations *)

Module Py.

(** The one-character strings the script needs that have no plain literal. *)
Definition nl : string := String (ascii_of_nat 10) EmptyString.
Definition space : ascii := ascii_of_nat 32.

(** [needle in hay] on [str]: some suffix of [hay] starts with [needle]. *)
Fixpoint str_in (needle hay : string) : bool :=
  match hay with
  | EmptyString => String.prefix needle EmptyString
  | String _ hay' => String.prefix needle hay || str_in needle hay'
  end.

(** [s.split(sep)] for a one-character separator: every occurrence of the
    separator ends a word, so the result has one more word than [s] has
    separators, and empty words are kept. *)
Fixpoint split (sep : ascii) (s : string) : list string :=
  match s with
  | EmptyString => [EmptyString]
  | String c s' =>
      if Ascii.eqb c sep then EmptyString :: split sep s'
      else match split sep s' with
           | w :: ws => String c w :: ws
           | [] => [String c EmptyString]
           end
  end.

(** [l[-a:-b]] for [a > 0] and [b > 0]: negative bounds count from the end
    and are clamped at the start of the list. *)
Definition slice_from_end {A} (a b : nat) (l : list A) : list A :=
  skipn (length l - a) (firstn (length l - b) l).

(** [sep.join(l)]. *)
Definition join (sep : string) (l : list string) : string :=
  String.concat sep l.

(** [l[-1]] on a list of words that [split] returned (never empty). *)
Definition last_word (l : list string) : string := List.last l EmptyString.

(** [s[0:3]]. *)
Definition first3 (s : string) : string := String.substring 0 3 s.

(** [str(n)] for a non-negative [int]. *)
Definition str_of_nat (n : nat) : string :=
  NilZero.string_of_uint (Nat.to_uint n).

End Py.

(** ** Exceptions and note printers *)

Inductive exn : Set := AssertionError | TypeError.

(** [GetHeader()] and [GetFooter()]. *)
Definition GetHeader : string :=
  "// Copyright 2017-2023 The Khronos Group. This work is licensed under a"
  +:+ Py.nl +:+
  "// Creative Commons Attribution 4.0 International License; see"
  +:+ Py.nl +:+
  "// http://creativecommons.org/licenses/by/4.0/"
  +:+ Py.nl.

Definition GetFooter : string := Py.nl.

(** A note printer receives the symbol name, [added_in] and
    [deprecated_by].  [added_in] is what [Element.get] returned, so it may
    be [None]; both printers then fail on [added_in[0:3]] with a
    [TypeError]. *)
Definition printer : Type :=
  string -> option string -> option string -> exn + string.

Definition FullNote : printer := fun name added_in deprecated_by =>
  match added_in with
  | None => inl TypeError
  | Some added_in =>
      if String.eqb added_in "1.0" then
        match deprecated_by with
        | None =>
            inr (Py.nl +:+ "// Intentionally empty, " +:+ name
                 +:+ " has always been present.")
        | Some deprecated_by =>
            inr (Py.nl +:+ "IMPORTANT: {" +:+ name
                 +:+ "} is <<unified-spec, deprecated by>> version "
                 +:+ deprecated_by +:+ ".")
        end
      else if negb (String.eqb (Py.first3 added_in) "cl_") then
        match deprecated_by with
        | None =>
            inr (Py.nl +:+ "IMPORTANT: {" +:+ name
                 +:+ "} is <<unified-spec, missing before>> version "
                 +:+ added_in +:+ ".")
        | Some deprecated_by =>
            inr (Py.nl +:+ "IMPORTANT: {" +:+ name
                 +:+ "} is <<unified-spec, missing before>> version "
                 +:+ added_in
                 +:+ " and <<unified-spec, deprecated by>> version "
                 +:+ deprecated_by +:+ ".")
        end
      else
        inr (Py.nl +:+ "IMPORTANT: " +:+ name +:+ " requires "
             +:+ added_in +:+ ".")
  end.

Definition ShortNote : printer := fun name added_in deprecated_by =>
  match added_in with
  | None => inl TypeError
  | Some added_in =>
      if String.eqb added_in "1.0" then
        match deprecated_by with
        | None =>
            inr ("// Intentionally empty, " +:+ name
                 +:+ " has always been present.")
        | Some deprecated_by =>
            inr ("<<unified-spec, Deprecated by>> version "
                 +:+ deprecated_by +:+ ".")
        end
      else if negb (String.eqb (Py.first3 added_in) "cl_") then
        match deprecated_by with
        | None =>
            inr ("<<unified-spec, Missing before>> version "
                 +:+ added_in +:+ ".")
        | Some deprecated_by =>
            inr ("<<unified-spec, Missing before>> version " +:+ added_in
                 +:+ " and <<unified-spec, deprecated by>> version "
                 +:+ deprecated_by +:+ ".")
        end
      else
        inr (name +:+ " requires " +:+ added_in +:+ ".")
  end.

(** ** The registry tree *)

(** An [xml.etree.ElementTree.Element]: tag, attributes, children in
    document order.  Text and tail are never read by the script.  The
    parser rejects a repeated attribute, so the attribute dictionary is a
    list of bindings read by first match. *)
Inductive Element : Type :=
  Elem (tag : string) (attrib : list (string * string))
       (children : list Element).

Definition tag (e : Element) : string :=
  match e with Elem t _ _ => t end.
Definition attrib (e : Element) : list (string * string) :=
  match e with Elem _ a _ => a end.
Definition children (e : Element) : list Element :=
  match e with Elem _ _ c => c end.

(** [e.get(key)]. *)
Fixpoint lookup_attr (key : string) (a : list (string * string))
  : option string :=
  match a with
  | [] => None
  | (k, v) :: a' => if String.eqb k key then Some v else lookup_attr key a'
  end.

Definition get (e : Element) (key : string) : option string :=
  lookup_attr key (attrib e).

(** [e.iter()]: the element and all its descendants, in document order. *)
Fixpoint iter (e : Element) : list Element :=
  match e with
  | Elem _ _ cs => e :: flat_map iter cs
  end.

(** The step [.//t] applied to [e]: the descendants of [e] with tag [t],
    in document order, [e] itself left out. *)
Definition descendants (t : string) (e : Element) : list Element :=
  List.filter (fun d => String.eqb (tag d) t) (flat_map iter (children e)).

(** The step [/t]: the children with tag [t]. *)
Definition child_elems (t : string) (e : Element) : list Element :=
  List.filter (fun c => String.eqb (tag c) t) (children e).

(** [spec.findall('.//{feature_type}/require/{entry_type}/../..')].
    The path selects every [entry_type] child of a [require] child of a
    [feature_type] descendant and then steps up twice; each [..] step
    yields a parent once, however many of its children were selected.  The
    result is therefore each [feature_type] descendant that has such a
    grandchild, once, in document order. *)
Definition containers (spec : Element) (feature_type entry_type : string)
  : list Element :=
  List.filter
    (fun f =>
       existsb (fun r => negb (Nat.eqb (length (child_elems entry_type r)) 0))
               (child_elems "require" f))
    (descendants feature_type spec).

(** [feature.findall('.//{entry_type}')]. *)
Definition entries (feature : Element) (entry_type : string)
  : list Element :=
  descendants entry_type feature.

(** [spec.findall('.//require[@comment]/%s[@name="%s"]/..' % (entry_type,
    name))]: every [require] descendant that carries a [comment] attribute
    and has an [entry_type] child whose [name] attribute is [name], once,
    in document order.  [name] is spliced into the path between double
    quotes; the embedding covers names without a double quote in them. *)
Definition categories (spec : Element) (entry_type name : string)
  : list Element :=
  List.filter
    (fun r =>
       match get r "comment" with
       | None => false
       | Some _ =>
           existsb
             (fun c =>
                match get c "name" with
                | Some n => String.eqb n name
                | None => false
                end)
             (child_elems entry_type r)
       end)
    (descendants "require" spec).

(** ** The deprecation scan (the loop over [categories]) *)

Definition marker : string := "deprecated in OpenCL".

(** One iteration on a comment, [deprecated_by] being the value so far. *)
Definition scan_comment (comment : string) (deprecated_by : option string)
  : exn + option string :=
  if Py.str_in marker comment then
    let words := Py.split Py.space comment in
    if String.eqb (Py.join " " (Py.slice_from_end 4 1 words)) marker then
      match deprecated_by with
      | None => inr (Some (Py.last_word words))
      | Some _ => inl AssertionError
      end
    else inl AssertionError
  else inr deprecated_by.

(** The loop over the comments of the categories, in order. *)
Fixpoint scan_comments (comments : list (option string))
  (deprecated_by : option string) : exn + option string :=
  match comments with
  | [] => inr deprecated_by
  | None :: _ => inl TypeError
  | Some comment :: rest =>
      match scan_comment comment deprecated_by with
      | inl e => inl e
      | inr d => scan_comments rest d
      end
  end.

(** [deprecated_by] after the loop, for one symbol of a feature. *)
Definition find_deprecated_by (spec : Element) (entry_type name : string)
  : exn + option string :=
  scan_comments
    (map (fun category => get category "comment")
         (categories spec entry_type name))
    None.

(** ** Effects: files written and lines printed *)

(** [Wrote name text]: the file [name + ".asciidoc"] of the output
    directory was opened for writing (truncating it) and closed holding
    [text].  [Printed line]: [print(line)]. *)
Inductive event : Type :=
| Wrote (name text : string)
| Printed (line : string).

(** A computation either finishes with a value or raises, leaving the
    events that happened before the exception. *)
Inductive outcome (A : Type) : Type :=
| Ok (a : A)
| Raise (e : exn) (tr : list event).
Arguments Ok {A} a.
Arguments Raise {A} e tr.

(** A [for] loop over [l] whose body may raise. *)
Fixpoint for_each {A S : Type} (l : list A) (body : A -> S -> outcome S)
  (s : S) : outcome S :=
  match l with
  | [] => Ok s
  | x :: l' =>
      match body x s with
      | Ok s' => for_each l' body s'
      | Raise e tr => Raise e tr
      end
  end.

(** ** [process_xml] *)

(** The local variables of [process_xml] and the events so far. *)
Record state : Type := mkState {
  seen_apis : gset string;
  numberOfEntries : nat;
  numberOfNewEntries : nat;
  numberOfDeprecatedEntries : nat;
  trace : list event
}.

(** The two lines printed for a skipped entry. *)
Definition warning1 (name : string) : string :=
  "WARNING: " +:+ name
  +:+ " exists as both a core version and extension API in the XML".
Definition warning2 : string :=
  "This is not currently handled correctly - only the core version dependency is noted".

(** ['%s' % name] for what [entry.get('name')] returned. *)
Definition percent_s (name : option string) : string :=
  match name with Some n => n | None => "None" end.

(** From [seen_apis.add(name)] to the end of the loop body.  A missing
    name makes [name + ".asciidoc"] raise; a printer that raises does so
    after the header went into the opened file. *)
Definition write_note (note_printer : printer) (name added_in
    deprecated_by : option string) (st : state) : outcome state :=
  match name with
  | None => Raise TypeError (trace st)
  | Some name =>
      match note_printer name added_in deprecated_by with
      | inl e => Raise e (trace st ++ [Wrote name GetHeader])
      | inr note =>
          Ok (mkState
                ({[ name ]} ∪ seen_apis st)
                (numberOfEntries st)
                (numberOfNewEntries st
                 + (if decide (added_in = Some "1.0") then 0 else 1))
                (numberOfDeprecatedEntries st
                 + (if decide (deprecated_by = None) then 0 else 1))
                (trace st
                 ++ [Wrote name (GetHeader +:+ note +:+ GetFooter)]))
      end
  end.

(** The body of the innermost loop, for one [entry] of one [feature]. *)
Definition entry_body (spec : Element) (entry_type : string)
    (note_printer : printer) (feature_type : string) (feature : Element)
    (entry : Element) (st : state) : outcome state :=
  let name := get entry "name" in
  let st := mkState (seen_apis st) (numberOfEntries st + 1)
              (numberOfNewEntries st) (numberOfDeprecatedEntries st)
              (trace st) in
  if String.eqb feature_type "feature" then
    let added_in := get feature "number" in
    match find_deprecated_by spec entry_type (percent_s name) with
    | inl e => Raise e (trace st)
    | inr deprecated_by =>
        write_note note_printer name added_in deprecated_by st
    end
  else
    if match name with
       | Some n => bool_decide (n ∈ seen_apis st)
       | None => false
       end
    then
      Ok (mkState (seen_apis st) (numberOfEntries st)
            (numberOfNewEntries st) (numberOfDeprecatedEntries st)
            (trace st
             ++ [Printed (warning1 (percent_s name)); Printed warning2]))
    else
      let added_in := get feature "name" in
      write_note note_printer name added_in None st.

(** The line printed after the loops. *)
Definition summary (entry_type : string) (n m k : nat) : string :=
  "Found " +:+ Py.str_of_nat n +:+ " API " +:+ entry_type +:+ "s, "
  +:+ Py.str_of_nat m +:+ " newer than 1.0, "
  +:+ Py.str_of_nat k +:+ " are deprecated.".

(** The three nested loops. *)
Definition process_loops (spec : Element) (entry_type : string)
    (note_printer : printer) (st : state) : outcome state :=
  for_each ["feature"; "extension"]
    (fun feature_type =>
       for_each (containers spec feature_type entry_type)
         (fun feature =>
            for_each (entries feature entry_type)
              (entry_body spec entry_type note_printer feature_type
                 feature)))
    st.

(** [process_xml(spec, entry_type, note_printer)], started after the events
    [tr]; it returns the events after its summary line. *)
Definition process_xml (spec : Element) (entry_type : string)
    (note_printer : printer) (tr : list event) : outcome (list event) :=
  match process_loops spec entry_type note_printer
          (mkState ∅ 0 0 0 tr) with
  | Raise e tr' => Raise e tr'
  | Ok st =>
      Ok (trace st
          ++ [Printed (summary entry_type (numberOfEntries st)
                       (numberOfNewEntries st)
                       (numberOfDeprecatedEntries st))])
  end.

(** The script body after the registry [spec] was parsed from
    [specpath]. *)
Definition main (specpath : string) (spec : Element)
  : outcome (list event) :=
  match process_xml spec "command" FullNote
          [Printed ("Generating version notes from: " +:+ specpath)] with
  | Raise e tr => Raise e tr
  | Ok tr => process_xml spec "enum" ShortNote tr
  end.

(** ** Example registries *)

Module Examples.

Definition sym (kind name : string) : Element :=
  Elem kind [("name", name)] [].
Definition require (cs : list Element) : Element := Elem "require" [] cs.
Definition require_c (comment : string) (cs : list Element) : Element :=
  Elem "require" [("comment", comment)] cs.
Definition feature (number : string) (rs : list Element) : Element :=
  Elem "feature" [("api", "opencl"); ("number", number)] rs.
Definition extension (name : string) (rs : list Element) : Element :=
  Elem "extension" [("name", name)] rs.
Definition registry (cs : list Element) : Element := Elem "registry" [] cs.

(** A command and an enum of 1.0, a command of 1.0 deprecated in 1.1, and
    an enum required both by 1.2 and by an extension. *)
Definition small : Element :=
  registry
    [ feature "1.0"
        [ require [ sym "command" "clFinish"; sym "enum" "CL_SUCCESS" ];
          require_c "OpenCL 1.0 APIs that were deprecated in OpenCL 1.1"
            [ sym "command" "clSetCommandQueueProperty" ] ];
      feature "1.2" [ require [ sym "enum" "CL_DEPTH" ] ];
      Elem "extensions" []
        [ extension "cl_khr_depth_images"
            [ require [ sym "enum" "CL_DEPTH" ] ] ] ].

End Examples.

(** * Definitions used to state the properties *)

(** ** Words and comments *)

(** A string is one word when the separator does not occur in it. *)
Fixpoint one_word (sep : ascii) (s : string) : bool :=
  match s with
  | EmptyString => true
  | String c s' => negb (Ascii.eqb c sep) && one_word sep s'
  end.

(** The comments the claims speak of: some text, a space, the marker
    phrase, a space, and one final word. *)
Definition deprecation_comment (text version : string) : string :=
  text +:+ " " +:+ marker +:+ " " +:+ version.

(** ** Symbol occurrences *)

(** A symbol occurrence: the container kind, the container and the entry
    the three loops reach together. *)
Definition occurrence : Type := string * Element * Element.

Definition in_feature (o : occurrence) : bool := String.eqb (o.1.1) "feature".
Definition container_of (o : occurrence) : Element := o.1.2.
Definition name_of (o : occurrence) : option string := get (o.2) "name".

Definition named (name : string) (o : occurrence) : bool :=
  match name_of o with
  | Some n => String.eqb n name
  | None => false
  end.

(** The occurrences in the order the loops visit them: those of all
    feature containers, then those of all extension containers. *)
Definition occurrences (spec : Element) (entry_type : string)
  : list occurrence :=
  flat_map
    (fun feature_type =>
       flat_map
         (fun feature =>
            map (fun entry => (feature_type, feature, entry))
                (entries feature entry_type))
         (containers spec feature_type entry_type))
    ["feature"; "extension"].

Definition body (spec : Element) (entry_type : string)
    (note_printer : printer) (o : occurrence) : state -> outcome state :=
  entry_body spec entry_type note_printer (o.1.1) (o.1.2) (o.2).

(** [added_in] and [deprecated_by] of an occurrence that is not skipped,
    and the text of the file written for it. *)
Definition added_in_of (o : occurrence) : option string :=
  if in_feature o then get (container_of o) "number"
  else get (container_of o) "name".

Definition deprecated_by_of (spec : Element) (entry_type : string)
    (o : occurrence) : exn + option string :=
  if in_feature o
  then find_deprecated_by spec entry_type (percent_s (name_of o))
  else inr None.

Definition text_of (spec : Element) (entry_type : string)
    (note_printer : printer) (o : occurrence) : option string :=
  match name_of o, deprecated_by_of spec entry_type o with
  | Some n, inr d =>
      match note_printer n (added_in_of o) d with
      | inr note => Some (GetHeader +:+ note +:+ GetFooter)
      | inl _ => None
      end
  | _, _ => None
  end.

(** An occurrence is skipped when it lies in an extension container and
    its name was met earlier in the pass. *)
Definition skipped (earlier : gset string) (o : occurrence) : bool :=
  negb (in_feature o)
  && match name_of o with
     | Some n => bool_decide (n ∈ earlier)
     | None => false
     end.

Definition met (earlier : gset string) (o : occurrence) : gset string :=
  match name_of o with
  | Some n => {[ n ]} ∪ earlier
  | None => earlier
  end.

(** The occurrences that are not skipped, and those that are. *)
Fixpoint processed (earlier : gset string) (occs : list occurrence)
  : list occurrence :=
  match occs with
  | [] => []
  | o :: rest =>
      (if skipped earlier o then [] else [o])
      ++ processed (met earlier o) rest
  end.

Fixpoint duplicates (earlier : gset string) (occs : list occurrence)
  : list occurrence :=
  match occs with
  | [] => []
  | o :: rest =>
      (if skipped earlier o then [o] else [])
      ++ duplicates (met earlier o) rest
  end.

(** What the two counters of processed entries count. *)
Definition is_new (o : occurrence) : bool :=
  negb (bool_decide (added_in_of o = Some "1.0")).

Definition is_deprecated (spec : Element) (entry_type : string)
    (o : occurrence) : bool :=
  match deprecated_by_of spec entry_type o with
  | inr (Some _) => true
  | _ => false
  end.

(** The events of a pass that does not raise. *)
Definition events_of (spec : Element) (entry_type : string)
    (note_printer : printer) (earlier : gset string) (o : occurrence)
  : list event :=
  match name_of o with
  | None => []
  | Some n =>
      if skipped earlier o then [Printed (warning1 n); Printed warning2]
      else match text_of spec entry_type note_printer o with
           | Some t => [Wrote n t]
           | None => []
           end
  end.

Fixpoint expected_events (spec : Element) (entry_type : string)
    (note_printer : printer) (earlier : gset string)
    (occs : list occurrence) : list event :=
  match occs with
  | [] => []
  | o :: rest =>
      events_of spec entry_type note_printer earlier o
      ++ expected_events spec entry_type note_printer (met earlier o) rest
  end.

(** ** Traces *)

(** Projections of a trace. *)
Definition writes_of (name : string) (tr : list event) : list string :=
  flat_map
    (fun ev =>
       match ev with
       | Wrote n t => if String.eqb n name then [t] else []
       | Printed _ => []
       end)
    tr.

Definition warnings_of (name : string) (tr : list event) : nat :=
  length
    (List.filter
       (fun ev =>
          match ev with
          | Printed l => String.eqb l (warning1 name)
          | Wrote _ _ => false
          end)
       tr).

Definition is_summary (ev : event) : bool :=
  match ev with
  | Printed l => String.prefix "Found " l
  | Wrote _ _ => false
  end.

(** What one occurrence adds to the two counters of processed entries. *)
Definition new_count (earlier : gset string) (o : occurrence) : nat :=
  if skipped earlier o then 0 else if is_new o then 1 else 0.

Definition deprecated_count (spec : Element) (entry_type : string)
    (earlier : gset string) (o : occurrence) : nat :=
  if skipped earlier o then 0
  else if is_deprecated spec entry_type o then 1 else 0.

(** The events and the summary line of a whole pass that does not
    raise. *)
Definition pass_events (spec : Element) (entry_type : string)
    (np : printer) : list event :=
  expected_events spec entry_type np ∅ (occurrences spec entry_type).

Definition pass_summary (spec : Element) (entry_type : string) : string :=
  summary entry_type
    (length (occurrences spec entry_type))
    (length (List.filter is_new
               (processed ∅ (occurrences spec entry_type))))
    (length (List.filter (is_deprecated spec entry_type)
               (processed ∅ (occurrences spec entry_type)))).

(** A state, and an outcome, with the events [tr0] put before its own. *)
Definition shift (tr0 : list event) (st : state) : state :=
  mkState (seen_apis st) (numberOfEntries st) (numberOfNewEntries st)
    (numberOfDeprecatedEntries st) (tr0 ++ trace st).

Definition shift_outcome (tr0 : list event) (r : outcome state)
  : outcome state :=
  match r with
  | Ok st => Ok (shift tr0 st)
  | Raise e tr => Raise e (tr0 ++ tr)
  end.

(** ** Example registries for the statements below *)

Module Registries.
Import Examples.

(** One command required by two core versions. *)
Definition two_features : Element :=
  registry
    [ feature "1.0" [ require [ sym "command" "clFoo" ] ];
      feature "1.1" [ require [ sym "command" "clFoo" ] ] ].

(** A command of an extension, listed in two groups that each claim its
    deprecation. *)
Definition extension_deprecated_twice : Element :=
  registry
    [ extension "cl_khr_foo"
        [ require_c "APIs deprecated in OpenCL 2.0"
            [ sym "command" "clFooKHR" ];
          require_c "APIs deprecated in OpenCL 2.1"
            [ sym "command" "clFooKHR" ] ] ].

(** A command of 1.0 in two groups that each claim its deprecation. *)
Definition feature_deprecated_twice : Element :=
  registry
    [ feature "1.0"
        [ require [ sym "command" "clBar" ];
          require_c "APIs deprecated in OpenCL 2.0"
            [ sym "command" "clFoo" ];
          require_c "APIs deprecated in OpenCL 2.1"
            [ sym "command" "clFoo" ] ] ].

(** An extension whose name lacks the [cl_] prefix. *)
Definition unprefixed_extension : Element :=
  registry [ extension "khr_foo" [ require [ sym "command" "clFoo" ] ] ].

(** An enum of 1.0 deprecated in 3.0. *)
Definition deprecated_enum : Element :=
  registry
    [ feature "1.0"
        [ require_c "enums that were deprecated in OpenCL 3.0"
            [ sym "enum" "CL_FOO" ] ] ].

(** A name that is both a command and an enum. *)
Definition both_kinds : Element :=
  registry
    [ feature "1.0" [ require [ sym "command" "foo" ] ];
      feature "1.2" [ require [ sym "enum" "foo" ] ] ].

(** A group whose comment has the marker phrase away from its end. *)
Definition marker_misplaced : Element :=
  registry
    [ feature "1.0"
        [ require [ sym "command" "clBar" ];
          require_c "deprecated in OpenCL 2.0 and later"
            [ sym "command" "clFoo" ] ] ].

End Registries.

(** ** Comments that claim a deprecation, and the schema *)

(** The comments of a list of require groups. *)
Definition comments_of (cs : list Element) : list (option string) :=
  map (fun category => get category "comment") cs.

(** A comment claims a deprecation when it contains the marker phrase. *)
Definition claims_deprecation (comment : option string) : bool :=
  match comment with
  | Some m => Py.str_in marker m
  | None => false
  end.

(** How many of the comments contain the marker phrase. *)
Definition marker_count (comments : list (option string)) : nat :=
  length (List.filter claims_deprecation comments).

(** 1 for a value that is present, 0 for [None]. *)
Definition some_count (d : option string) : nat :=
  match d with Some _ => 1 | None => 0 end.

(** The registry schema: every container reached carries its [number] or
    [name] attribute and every entry reached carries a [name]. *)
Definition schema_ok (spec : Element) (entry_type : string) : bool :=
  forallb
    (fun o =>
       match name_of o, added_in_of o with
       | Some _, Some _ => true
       | _, _ => false
       end)
    (occurrences spec entry_type).

(** ** Counting the events of a pass *)

(** A file was written; the second line of a warning was printed. *)
Definition is_wrote (ev : event) : bool :=
  match ev with
  | Wrote _ _ => true
  | Printed _ => false
  end.

Definition is_warning (ev : event) : bool :=
  match ev with
  | Printed l => String.eqb l warning2
  | Wrote _ _ => false
  end.

(** ** Names the path query takes as they stand *)

(** [process_xml] splices the symbol name between double quotes into the
    path it hands to [findall]; [categories] is that query for a name
    with no double quote in it. *)
Definition dquote : ascii := ascii_of_nat 34.

Fixpoint quote_free (s : string) : bool :=
  match s with
  | EmptyString => true
  | String c s' => negb (Ascii.eqb c dquote) && quote_free s'
  end.

(** Every entry visited carries a name without a double quote, or none. *)
Definition names_quote_free (spec : Element) (entry_type : string) : bool :=
  forallb
    (fun o =>
       match name_of o with
       | Some n => quote_free n
       | None => true
       end)
    (occurrences spec entry_type).

(** ** The comments the scan takes a version from *)

(** The comment is the marker phrase, a space and [version], or ends with
    a space, the marker phrase, a space and [version]. *)
Definition ends_in_deprecation (comment version : string) : Prop :=
  comment = marker +:+ " " +:+ version
  \/ exists text, comment = deprecation_comment text version.

(** The words of a comment as the claims name them: delimited by white
    space, as [str.split()] without an argument gives them. *)
Definition whitespace_tokens (s : string) : list string := String.words s.

(** ** Example registries for the limits of the claims *)

Module Limits.
Import Examples.

(** The marker phrase followed by a space and nothing. *)
Definition trailing_space : Element :=
  registry
    [ feature "1.0"
        [ require_c "x deprecated in OpenCL "
            [ sym "command" "clFoo" ] ] ].

(** The marker phrase glued to the word before it. *)
Definition marker_glued : Element :=
  registry
    [ feature "1.0"
        [ require_c "pre-deprecated in OpenCL 3.0"
            [ sym "enum" "CL_FOO" ] ] ].

(** An entry without a name ahead of a symbol whose deprecation is claimed
    twice. *)
Definition nameless_before_twice : Element :=
  registry
    [ feature "1.0"
        [ require [ Elem "command" [] [] ];
          require_c "APIs deprecated in OpenCL 2.0"
            [ sym "command" "clFoo" ];
          require_c "APIs deprecated in OpenCL 2.1"
            [ sym "command" "clFoo" ] ] ].

(** An entry without a name ahead of a symbol whose comment has the marker
    phrase away from its end. *)
Definition nameless_before_misplaced : Element :=
  registry
    [ feature "1.0"
        [ require [ Elem "command" [] [] ];
          require_c "deprecated in OpenCL 2.0 and later"
            [ sym "command" "clFoo" ] ] ].

End Limits.

(** * Properties *)

(** ** Strings *)

Section StringFacts.

#[local] Arguments String.append : simpl nomatch.

Lemma append_assoc (a b c : string) : (a +:+ b) +:+ c = a +:+ (b +:+ c).
Proof. induction a as [|x a IH]; simpl; [reflexivity | now rewrite IH]. Qed.

Lemma append_length (a b : string) :
  String.length (a +:+ b) = String.length a + String.length b.
Proof. induction a as [|x a IH]; simpl; [reflexivity | now rewrite IH]. Qed.

Lemma append_inv_head (a b c : string) : a +:+ b = a +:+ c -> b = c.
Proof.
  induction a as [|x a IH]; simpl; intros H; [exact H|].
  injection H as H. now apply IH.
Qed.

Lemma append_inv_tail (a b c : string) : a +:+ c = b +:+ c -> a = b.
Proof.
  revert b. induction a as [|x a IH]; intros [|y b] H; simpl in H.
  - reflexivity.
  - apply (f_equal String.length) in H. simpl in H.
    rewrite append_length in H. lia.
  - apply (f_equal String.length) in H. simpl in H.
    rewrite append_length in H. lia.
  - injection H as Hx H. subst y. f_equal. now apply IH.
Qed.

Lemma prefix_append (a b : string) : String.prefix a (a +:+ b) = true.
Proof.
  induction a as [|x a IH]; simpl.
  - now destruct b.
  - destruct (ascii_dec x x) as [_|N]; [exact IH | now destruct N].
Qed.

Lemma str_in_prefix (n h : string) :
  String.prefix n h = true -> Py.str_in n h = true.
Proof. destruct h; simpl; intros ->; reflexivity. Qed.

Lemma str_in_append (n a b : string) :
  Py.str_in n b = true -> Py.str_in n (a +:+ b) = true.
Proof.
  induction a as [|x a IH]; simpl; intros H; [exact H|].
  rewrite (IH H). apply orb_true_r.
Qed.

Lemma split_nonempty (sep : ascii) (s : string) : Py.split sep s <> [].
Proof.
  induction s as [|c s IH]; simpl; [discriminate|].
  destruct (Ascii.eqb c sep); [discriminate|].
  destruct (Py.split sep s); [contradiction | discriminate].
Qed.

Lemma split_append (sep : ascii) (a b : string) :
  Py.split sep (a +:+ String sep b) = Py.split sep a ++ Py.split sep b.
Proof.
  induction a as [|c a IH]; simpl.
  - now rewrite Ascii.eqb_refl.
  - destruct (Ascii.eqb c sep); rewrite IH; [reflexivity|].
    pose proof (split_nonempty sep a) as Hne.
    destruct (Py.split sep a); [contradiction | reflexivity].
Qed.

Lemma split_one_word (sep : ascii) (s : string) :
  one_word sep s = true -> Py.split sep s = [s].
Proof.
  induction s as [|c s IH]; simpl; [reflexivity|].
  destruct (Ascii.eqb c sep); simpl; [discriminate|].
  intros H. now rewrite (IH H).
Qed.

Lemma slice_from_end_4_1 {A} (l : list A) (a b c d : A) :
  Py.slice_from_end 4 1 (l ++ [a; b; c; d]) = [a; b; c].
Proof.
  unfold Py.slice_from_end. rewrite List.length_app. simpl.
  replace (length l + 4 - 4) with (length l) by lia.
  replace (length l + 4 - 1) with (length l + 3) by lia.
  rewrite List.firstn_app.
  replace (length l + 3 - length l) with 3 by lia.
  rewrite List.firstn_all2 by lia. simpl.
  rewrite List.skipn_app, List.skipn_all, Nat.sub_diag. reflexivity.
Qed.

Lemma last_word_append (l : list string) (a b c d : string) :
  Py.last_word (l ++ [a; b; c; d]) = d.
Proof.
  unfold Py.last_word.
  change (l ++ [a; b; c; d]) with (l ++ [a; b; c] ++ [d]).
  rewrite List.app_assoc. apply List.last_last.
Qed.

Lemma first3_cl_not_1_0 (s : string) :
  Py.first3 s = "cl_" -> String.eqb s "1.0" = false.
Proof.
  intros H. apply String.eqb_neq. intros ->. discriminate H.
Qed.

End StringFacts.

(** ** What the deprecation scan extracts *)

Section Scan.

Lemma deprecation_comment_words (text version : string) :
  one_word Py.space version = true ->
  Py.split Py.space (deprecation_comment text version)
  = Py.split Py.space text ++ ["deprecated"; "in"; "OpenCL"; version].
Proof.
  intros Hv. unfold deprecation_comment.
  change (" " +:+ marker +:+ " " +:+ version)
    with (String Py.space ("deprecated"
            +:+ String Py.space ("in"
            +:+ String Py.space ("OpenCL"
            +:+ String Py.space version)))).
  rewrite !split_append, (split_one_word _ _ Hv). reflexivity.
Qed.

Lemma scan_deprecation_comment (text version : string) :
  one_word Py.space version = true ->
  scan_comment (deprecation_comment text version) None
  = inr (Some version).
Proof.
  intros Hv. unfold scan_comment.
  replace (Py.str_in marker (deprecation_comment text version)) with true.
  2:{ symmetry. unfold deprecation_comment.
      do 2 apply str_in_append. apply str_in_prefix, prefix_append. }
  cbv zeta. rewrite (deprecation_comment_words _ _ Hv).
  rewrite slice_from_end_4_1, last_word_append. reflexivity.
Qed.

End Scan.

(** ** The loops as one pass over symbol occurrences *)

Section Loops.

Context {A S : Type}.

Lemma for_each_app (l1 l2 : list A) (f : A -> S -> outcome S) (s : S) :
  for_each (l1 ++ l2) f s
  = match for_each l1 f s with
    | Ok s' => for_each l2 f s'
    | Raise e tr => Raise e tr
    end.
Proof.
  revert s. induction l1 as [|x l1 IH]; intros s; simpl; [reflexivity|].
  destruct (f x s); [apply IH | reflexivity].
Qed.

Lemma for_each_map {B} (g : B -> A) (l : list B)
    (f : A -> S -> outcome S) (s : S) :
  for_each (map g l) f s = for_each l (fun b => f (g b)) s.
Proof.
  revert s. induction l as [|x l IH]; intros s; simpl; [reflexivity|].
  destruct (f (g x) s); [apply IH | reflexivity].
Qed.

Lemma for_each_flat_map {B} (g : B -> list A) (l : list B)
    (f : A -> S -> outcome S) (s : S) :
  for_each (flat_map g l) f s = for_each l (fun b => for_each (g b) f) s.
Proof.
  revert s. induction l as [|x l IH]; intros s; simpl; [reflexivity|].
  rewrite for_each_app. destruct (for_each (g x) f s); [apply IH | reflexivity].
Qed.

Lemma for_each_ext (l : list A) (f g : A -> S -> outcome S) (s : S) :
  (forall a s, f a s = g a s) -> for_each l f s = for_each l g s.
Proof.
  intros H. revert s. induction l as [|x l IH]; intros s; simpl; [reflexivity|].
  rewrite H. destruct (g x s); [apply IH | reflexivity].
Qed.

End Loops.

Lemma process_loops_flat spec entry_type np st :
  process_loops spec entry_type np st
  = for_each (occurrences spec entry_type) (body spec entry_type np) st.
Proof.
  unfold process_loops, occurrences.
  rewrite for_each_flat_map. apply for_each_ext. intros ft s.
  rewrite for_each_flat_map. apply for_each_ext. intros f s'.
  rewrite for_each_map. reflexivity.
Qed.

(** ** One iteration *)

Lemma write_note_Ok np name added_in d st st' :
  write_note np name added_in d st = Ok st' ->
  exists n note,
    name = Some n /\ np n added_in d = inr note
    /\ st' = mkState ({[ n ]} ∪ seen_apis st) (numberOfEntries st)
               (numberOfNewEntries st
                + (if decide (added_in = Some "1.0") then 0 else 1))
               (numberOfDeprecatedEntries st
                + (if decide (d = None) then 0 else 1))
               (trace st ++ [Wrote n (GetHeader +:+ note +:+ GetFooter)]).
Proof.
  unfold write_note. destruct name as [n|]; [|discriminate].
  destruct (np n added_in d) as [e|note] eqn:Hnp; [discriminate|].
  intros [= <-]. exists n, note. auto.
Qed.

Lemma body_Ok spec entry_type np o st st' :
  body spec entry_type np o st = Ok st' ->
  (exists n, name_of o = Some n)
  /\ seen_apis st' = met (seen_apis st) o
  /\ numberOfEntries st' = numberOfEntries st + 1
  /\ numberOfNewEntries st'
     = numberOfNewEntries st + new_count (seen_apis st) o
  /\ numberOfDeprecatedEntries st'
     = numberOfDeprecatedEntries st
       + deprecated_count spec entry_type (seen_apis st) o
  /\ trace st' = trace st ++ events_of spec entry_type np (seen_apis st) o
  /\ (skipped (seen_apis st) o = false ->
      text_of spec entry_type np o <> None).
Proof.
  destruct o as [[ft f] e].
  unfold body, entry_body, events_of, new_count, deprecated_count, skipped,
    met, text_of, is_new, is_deprecated, deprecated_by_of, added_in_of,
    in_feature, name_of, container_of.
  simpl fst; simpl snd.
  destruct (String.eqb ft "feature") eqn:Hft; simpl negb; simpl andb.
  - destruct (find_deprecated_by spec entry_type (percent_s (get e "name")))
      as [err|d] eqn:Hd; [discriminate|].
    intros H. apply write_note_Ok in H as (n & note & Hn & Hnp & ->).
    simpl. rewrite Hn, Hnp. simpl.
    repeat split; eauto; try discriminate.
    + destruct (decide (get f "number" = Some "1.0")) as [Heq|Hne].
      * now rewrite bool_decide_eq_true_2.
      * now rewrite bool_decide_eq_false_2.
    + destruct d; reflexivity.
  - destruct (get e "name") as [n|] eqn:Hn.
    + cbv beta iota zeta. simpl seen_apis.
      destruct (bool_decide (n ∈ seen_apis st)) eqn:Hseen.
      * intros Heq. injection Heq as <-. simpl.
        apply bool_decide_eq_true_1 in Hseen.
        repeat split; eauto; try discriminate; try lia.
        symmetry. apply subseteq_union_1_L, singleton_subseteq_l, Hseen.
      * intros H. apply write_note_Ok in H as (n' & note & Hn' & Hnp & ->).
        injection Hn' as <-. simpl. rewrite Hnp. simpl.
        repeat split; eauto; try discriminate.
        destruct (decide (get f "name" = Some "1.0")) as [Heq|Hne].
        -- now rewrite bool_decide_eq_true_2.
        -- now rewrite bool_decide_eq_false_2.
    + intros H. apply write_note_Ok in H as (n' & note & Hn' & _).
      discriminate.
Qed.

(** ** A pass that does not raise *)

Lemma loop_Ok spec entry_type np occs : forall st st',
  for_each occs (body spec entry_type np) st = Ok st' ->
  trace st'
  = trace st ++ expected_events spec entry_type np (seen_apis st) occs
  /\ numberOfEntries st' = numberOfEntries st + length occs
  /\ numberOfNewEntries st'
     = numberOfNewEntries st
       + length (List.filter is_new (processed (seen_apis st) occs))
  /\ numberOfDeprecatedEntries st'
     = numberOfDeprecatedEntries st
       + length (List.filter (is_deprecated spec entry_type)
                   (processed (seen_apis st) occs))
  /\ Forall (fun o => name_of o <> None) occs
  /\ Forall (fun o => text_of spec entry_type np o <> None)
       (processed (seen_apis st) occs).
Proof.
  induction occs as [|o occs IH]; intros st st'; simpl.
  - intros [= <-]. rewrite app_nil_r.
    repeat split; auto.
  - destruct (body spec entry_type np o st) as [st1|] eqn:Hb; [|discriminate].
    intros Hrest.
    apply body_Ok in Hb as ([n Hn] & Hseen & Hn1 & Hn2 & Hn3 & Htr & Htext).
    apply IH in Hrest as (Itr & I1 & I2 & I3 & Inames & Itexts).
    rewrite Hseen in *.
    unfold new_count in Hn2. unfold deprecated_count in Hn3.
    repeat split.
    + rewrite Itr, Htr, <- app_assoc. reflexivity.
    + lia.
    + rewrite I2, Hn2, List.filter_app, List.length_app.
      destruct (skipped (seen_apis st) o); simpl; [lia|].
      destruct (is_new o); simpl; lia.
    + rewrite I3, Hn3, List.filter_app, List.length_app.
      destruct (skipped (seen_apis st) o); simpl; [lia|].
      destruct (is_deprecated spec entry_type o); simpl; lia.
    + constructor; [congruence | exact Inames].
    + apply Forall_app. split; [|exact Itexts].
      destruct (skipped (seen_apis st) o); constructor; auto.
Qed.

(** ** Reading a trace *)

Lemma writes_of_app name tr1 tr2 :
  writes_of name (tr1 ++ tr2) = writes_of name tr1 ++ writes_of name tr2.
Proof. apply List.flat_map_app. Qed.

Lemma warnings_of_app name tr1 tr2 :
  warnings_of name (tr1 ++ tr2) = warnings_of name tr1 + warnings_of name tr2.
Proof. unfold warnings_of. now rewrite List.filter_app, List.length_app. Qed.

Lemma warning1_inj n m : warning1 n = warning1 m -> n = m.
Proof.
  unfold warning1. intros H.
  apply append_inv_head in H. now apply append_inv_tail in H.
Qed.

Lemma warning1_eqb n m : String.eqb (warning1 n) (warning1 m) = String.eqb n m.
Proof.
  destruct (String.eqb_spec n m) as [->|Hne].
  - apply String.eqb_refl.
  - apply String.eqb_neq. intros H. now apply warning1_inj in H.
Qed.

Lemma warning2_not_warning1 n : String.eqb warning2 (warning1 n) = false.
Proof. reflexivity. Qed.

Lemma named_met name earlier o :
  named name o = false -> (name ∈ met earlier o <-> name ∈ earlier).
Proof.
  unfold named, met. destruct (name_of o) as [n|]; [|tauto].
  intros Hne. apply String.eqb_neq in Hne. set_solver.
Qed.

Lemma named_met_in name earlier o :
  named name o = true -> name ∈ met earlier o.
Proof.
  unfold named, met. destruct (name_of o) as [n|]; [|discriminate].
  intros Heq. apply String.eqb_eq in Heq. set_solver.
Qed.

Lemma named_skipped name earlier o :
  named name o = true ->
  skipped earlier o = negb (in_feature o) && bool_decide (name ∈ earlier).
Proof.
  unfold named, skipped. destruct (name_of o) as [n|]; [|discriminate].
  intros Heq. apply String.eqb_eq in Heq. now subst.
Qed.

(** ** The events of a pass, name by name *)

Section PerName.

Variables (spec : Element) (entry_type : string) (np : printer).
Variable name : string.

Lemma writes_of_expected : forall occs earlier,
  Forall (fun o => text_of spec entry_type np o <> None)
    (processed earlier occs) ->
  map Some (writes_of name (expected_events spec entry_type np earlier occs))
  = map (text_of spec entry_type np)
      (List.filter (named name) (processed earlier occs)).
Proof.
  induction occs as [|o occs IH]; intros earlier Htexts; simpl; [reflexivity|].
  simpl in Htexts. apply Forall_app in Htexts as [Ho Hrest].
  rewrite writes_of_app, List.map_app, List.filter_app, List.map_app.
  rewrite (IH _ Hrest). f_equal.
  unfold events_of, named.
  destruct (name_of o) as [n|] eqn:Hn.
  - destruct (skipped earlier o); simpl; [reflexivity|].
    inversion Ho as [|? ? Ht _]; subst.
    destruct (text_of spec entry_type np o) as [t|] eqn:Htext;
      [|contradiction].
    simpl. unfold named. rewrite Hn.
    destruct (String.eqb n name); simpl; [now rewrite Htext | reflexivity].
  - destruct (skipped earlier o); simpl; [reflexivity|].
    inversion Ho as [|? ? Ht _]; subst.
    unfold text_of in Ht. rewrite Hn in Ht. contradiction.
Qed.

Lemma warnings_of_expected : forall occs earlier,
  Forall (fun o => name_of o <> None) occs ->
  warnings_of name (expected_events spec entry_type np earlier occs)
  = length (List.filter (named name) (duplicates earlier occs)).
Proof.
  induction occs as [|o occs IH]; intros earlier Hnames; simpl; [reflexivity|].
  inversion Hnames as [|? ? Ho Hrest]; subst.
  rewrite warnings_of_app, List.filter_app, List.length_app, (IH _ Hrest).
  f_equal. unfold events_of.
  destruct (name_of o) as [n|] eqn:Hn; [|contradiction].
  destruct (skipped earlier o); simpl.
  - unfold warnings_of, named, List.filter. rewrite Hn.
    rewrite warning1_eqb, warning2_not_warning1.
    destruct (String.eqb n name); reflexivity.
  - destruct (text_of spec entry_type np o); reflexivity.
Qed.

(** Which occurrences of [name] are processed: the first one, unless the
    name was met before the pass, and every later one that lies in a
    feature container. *)
Lemma processed_named_seen : forall occs earlier,
  name ∈ earlier ->
  List.filter (named name) (processed earlier occs)
  = List.filter in_feature (List.filter (named name) occs).
Proof.
  induction occs as [|o occs IH]; intros earlier Hin; simpl; [reflexivity|].
  rewrite List.filter_app.
  destruct (named name o) eqn:Hnamed.
  - rewrite (named_skipped _ _ _ Hnamed), bool_decide_eq_true_2 by exact Hin.
    rewrite andb_true_r. simpl.
    rewrite (IH _ (named_met_in _ _ _ Hnamed)).
    destruct (in_feature o); simpl; [now rewrite Hnamed | reflexivity].
  - rewrite IH by now apply named_met.
    destruct (skipped earlier o); simpl; [reflexivity | now rewrite Hnamed].
Qed.

Lemma processed_named_fresh : forall occs earlier,
  name ∉ earlier ->
  List.filter (named name) (processed earlier occs)
  = match List.filter (named name) occs with
    | [] => []
    | first :: rest => first :: List.filter in_feature rest
    end.
Proof.
  induction occs as [|o occs IH]; intros earlier Hin; simpl; [reflexivity|].
  rewrite List.filter_app.
  destruct (named name o) eqn:Hnamed.
  - rewrite (named_skipped _ _ _ Hnamed), bool_decide_eq_false_2 by exact Hin.
    rewrite andb_false_r. simpl. rewrite Hnamed. f_equal.
    apply processed_named_seen, named_met_in, Hnamed.
  - rewrite IH by now rewrite named_met.
    destruct (skipped earlier o); simpl; [reflexivity | now rewrite Hnamed].
Qed.

Lemma duplicates_named_seen : forall occs earlier,
  name ∈ earlier ->
  List.filter (named name) (duplicates earlier occs)
  = List.filter (fun o => negb (in_feature o))
      (List.filter (named name) occs).
Proof.
  induction occs as [|o occs IH]; intros earlier Hin; simpl; [reflexivity|].
  rewrite List.filter_app.
  destruct (named name o) eqn:Hnamed.
  - rewrite (named_skipped _ _ _ Hnamed), bool_decide_eq_true_2 by exact Hin.
    rewrite andb_true_r. simpl.
    rewrite (IH _ (named_met_in _ _ _ Hnamed)).
    destruct (in_feature o); simpl; [reflexivity | now rewrite Hnamed].
  - rewrite IH by now apply named_met.
    destruct (skipped earlier o); simpl; [now rewrite Hnamed | reflexivity].
Qed.

Lemma duplicates_named_fresh : forall occs earlier,
  name ∉ earlier ->
  List.filter (named name) (duplicates earlier occs)
  = List.filter (fun o => negb (in_feature o))
      (tail (List.filter (named name) occs)).
Proof.
  induction occs as [|o occs IH]; intros earlier Hin; simpl; [reflexivity|].
  rewrite List.filter_app.
  destruct (named name o) eqn:Hnamed.
  - rewrite (named_skipped _ _ _ Hnamed), bool_decide_eq_false_2 by exact Hin.
    rewrite andb_false_r. simpl.
    apply duplicates_named_seen, named_met_in, Hnamed.
  - rewrite IH by now rewrite named_met.
    destruct (skipped earlier o); simpl; [now rewrite Hnamed | reflexivity].
Qed.

End PerName.

Lemma expected_events_not_summary spec entry_type np : forall occs earlier,
  Forall (fun ev => is_summary ev = false)
    (expected_events spec entry_type np earlier occs).
Proof.
  induction occs as [|o occs IH]; intros earlier; simpl; [constructor|].
  apply Forall_app. split; [|apply IH].
  unfold events_of. destruct (name_of o); [|constructor].
  destruct (skipped earlier o).
  - repeat constructor.
  - destruct (text_of spec entry_type np o); repeat constructor.
Qed.

(** ** A whole pass *)

Lemma process_xml_Ok spec entry_type np tr tr' :
  process_xml spec entry_type np tr = Ok tr' ->
  tr' = tr ++ pass_events spec entry_type np
           ++ [Printed (pass_summary spec entry_type)]
  /\ Forall (fun o => name_of o <> None) (occurrences spec entry_type)
  /\ Forall (fun o => text_of spec entry_type np o <> None)
       (processed ∅ (occurrences spec entry_type)).
Proof.
  unfold process_xml. rewrite process_loops_flat.
  destruct (for_each _ _ _) as [st|] eqn:Hloop; [|discriminate].
  intros Heq. injection Heq as <-.
  apply loop_Ok in Hloop as (Htr & H1 & H2 & H3 & Hnames & Htexts).
  simpl in *. rewrite Htr, H1, H2, H3, <- app_assoc.
  repeat split; auto.
Qed.

(** Feature occurrences come before extension occurrences. *)
Lemma occurrences_order spec entry_type :
  exists fs es,
    occurrences spec entry_type = fs ++ es
    /\ Forall (fun o => in_feature o = true) fs
    /\ Forall (fun o => in_feature o = false) es.
Proof.
  unfold occurrences. simpl. rewrite app_nil_r.
  eexists _, _. split; [reflexivity|].
  split; apply List.Forall_forall; intros o Hin;
    apply in_flat_map in Hin as (f & _ & Hin);
    apply in_map_iff in Hin as (e & <- & _); reflexivity.
Qed.

Lemma filter_all_false {A} (p : A -> bool) (l : list A) :
  Forall (fun a => p a = false) l -> List.filter p l = [].
Proof.
  induction 1 as [|a l Ha _ IH]; simpl; [reflexivity | now rewrite Ha].
Qed.

Lemma filter_all_true {A} (p : A -> bool) (l : list A) :
  Forall (fun a => p a = true) l -> List.filter p l = l.
Proof.
  induction 1 as [|a l Ha _ IH]; simpl; [reflexivity | now rewrite Ha, IH].
Qed.

Lemma Forall_filter {A} (P : A -> Prop) (p : A -> bool) (l : list A) :
  Forall P l -> Forall P (List.filter p l).
Proof.
  induction 1 as [|a l Ha _ IH]; simpl; [constructor|].
  destruct (p a); [constructor|]; assumption.
Qed.

(** When at most one occurrence of a name lies in a feature container,
    every occurrence after the first visited one lies in an extension
    container. *)
Lemma later_occurrences_in_extensions spec entry_type name first rest :
  List.filter (named name) (occurrences spec entry_type) = first :: rest ->
  length (List.filter in_feature (first :: rest)) <= 1 ->
  Forall (fun o => in_feature o = false) rest.
Proof.
  destruct (occurrences_order spec entry_type) as (fs & es & -> & Hfs & Hes).
  rewrite List.filter_app. intros Heq Hlen.
  pose proof (Forall_filter _ (named name) _ Hfs) as Hfs'.
  pose proof (Forall_filter _ (named name) _ Hes) as Hes'.
  destruct (List.filter (named name) fs) as [|f fs'] eqn:Hf; simpl in Heq.
  - rewrite Heq in Hes'. now inversion Hes'.
  - injection Heq as <- <-.
    inversion Hfs' as [|? ? Hfirst Hfs'']; subst.
    simpl in Hlen. rewrite Hfirst in Hlen. simpl in Hlen.
    rewrite List.filter_app, List.length_app in Hlen.
    rewrite (filter_all_true _ _ Hfs'') in Hlen.
    destruct fs' as [|f' fs']; [exact Hes' | simpl in Hlen; lia].
Qed.

(** The writes and warnings of a pass for one name. *)
Lemma pass_writes spec entry_type np tr tr' name first rest :
  process_xml spec entry_type np tr = Ok tr' ->
  List.filter (named name) (occurrences spec entry_type) = first :: rest ->
  map Some (writes_of name (pass_events spec entry_type np))
  = map (text_of spec entry_type np)
      (first :: List.filter in_feature rest)
  /\ warnings_of name (pass_events spec entry_type np)
     = length (List.filter (fun o => negb (in_feature o)) rest).
Proof.
  intros Hrun Hocc.
  apply process_xml_Ok in Hrun as (_ & Hnames & Htexts).
  unfold pass_events. split.
  - rewrite writes_of_expected by exact Htexts.
    rewrite processed_named_fresh by set_solver.
    now rewrite Hocc.
  - rewrite warnings_of_expected by exact Hnames.
    rewrite duplicates_named_fresh by set_solver.
    now rewrite Hocc.
Qed.

Lemma pass_first_text spec entry_type np tr tr' name first rest :
  process_xml spec entry_type np tr = Ok tr' ->
  List.filter (named name) (occurrences spec entry_type) = first :: rest ->
  exists text, text_of spec entry_type np first = Some text.
Proof.
  intros Hrun Hocc.
  apply process_xml_Ok in Hrun as (_ & _ & Htexts).
  apply (Forall_filter _ (named name)) in Htexts.
  rewrite processed_named_fresh, Hocc in Htexts by set_solver.
  inversion Htexts as [|? ? Hfirst _]; subst.
  destruct (text_of spec entry_type np first) as [t|]; [eauto | contradiction].
Qed.

(** ** A pass does not depend on the events before it *)

Lemma body_shift spec entry_type np tr0 o st :
  body spec entry_type np o (shift tr0 st)
  = shift_outcome tr0 (body spec entry_type np o st).
Proof.
  unfold body, entry_body, write_note, shift_outcome, shift. simpl.
  destruct (String.eqb (o.1.1) "feature").
  - destruct (find_deprecated_by _ _ _) as [e|d]; simpl; [reflexivity|].
    destruct (get (o.2) "name") as [n|]; simpl; [|reflexivity].
    destruct (np n _ d); simpl; now rewrite <- ?List.app_assoc.
  - destruct (get (o.2) "name") as [n|]; simpl; [|reflexivity].
    destruct (bool_decide (n ∈ seen_apis st)); simpl.
    + now rewrite <- ?List.app_assoc.
    + destruct (np n _ None); simpl; now rewrite <- ?List.app_assoc.
Qed.

Lemma loop_shift spec entry_type np tr0 occs : forall st,
  for_each occs (body spec entry_type np) (shift tr0 st)
  = shift_outcome tr0 (for_each occs (body spec entry_type np) st).
Proof.
  induction occs as [|o occs IH]; intros st; simpl; [reflexivity|].
  rewrite body_shift.
  destruct (body spec entry_type np o st) as [st1|]; simpl;
    [apply IH | reflexivity].
Qed.

Lemma process_xml_shift spec entry_type np tr0 :
  process_xml spec entry_type np tr0
  = match process_xml spec entry_type np [] with
    | Ok tr => Ok (tr0 ++ tr)
    | Raise e tr => Raise e (tr0 ++ tr)
    end.
Proof.
  unfold process_xml. rewrite !process_loops_flat.
  replace (mkState ∅ 0 0 0 tr0) with (shift tr0 (mkState ∅ 0 0 0 []))
    by (unfold shift; simpl; now rewrite app_nil_r).
  rewrite loop_shift.
  destruct (for_each _ _ _) as [st|]; simpl; [|reflexivity].
  now rewrite <- List.app_assoc.
Qed.

Lemma process_xml_alone spec entry_type np tr :
  process_xml spec entry_type np [] = Ok tr ->
  tr = pass_events spec entry_type np
       ++ [Printed (pass_summary spec entry_type)].
Proof. intros H. now apply process_xml_Ok in H as [-> _]. Qed.

Lemma summary_no_write name entry_type n m k :
  writes_of name [Printed (summary entry_type n m k)] = [].
Proof. reflexivity. Qed.

Lemma summary_no_warning name entry_type n m k :
  warnings_of name [Printed (summary entry_type n m k)] = 0.
Proof. reflexivity. Qed.

(** ** The deprecation scan *)

Section ScanFacts.

Lemma categories_have_comment spec entry_type name :
  Forall (fun c => c <> None)
    (comments_of (categories spec entry_type name)).
Proof.
  unfold comments_of, categories. apply List.Forall_forall.
  intros c Hin. apply in_map_iff in Hin as (r & <- & Hin).
  apply filter_In in Hin as [_ Hr].
  destruct (get r "comment"); [discriminate | discriminate Hr].
Qed.

Lemma scan_comment_cases comment d0 :
  scan_comment comment d0 = inl AssertionError
  \/ (Py.str_in marker comment = false /\ scan_comment comment d0 = inr d0)
  \/ (Py.str_in marker comment = true /\ d0 = None
      /\ scan_comment comment d0
         = inr (Some (Py.last_word (Py.split Py.space comment)))).
Proof.
  unfold scan_comment. destruct (Py.str_in marker comment); [|auto].
  destruct (String.eqb _ marker); [|auto].
  destruct d0; auto.
Qed.

(** A scan that returns has met the marker phrase at most once, counting
    a value it started with. *)
Lemma scan_Ok_count : forall comments d0 d,
  scan_comments comments d0 = inr d ->
  marker_count comments + some_count d0 = some_count d.
Proof.
  unfold marker_count.
  induction comments as [|[m|] cs IH]; intros d0 d; simpl.
  - intros [= ->]. reflexivity.
  - destruct (scan_comment_cases m d0) as [E|[[Hm E]|(Hm & -> & E)]];
      rewrite E, ?Hm; [discriminate | apply IH |].
    intros H. apply IH in H. simpl in *. lia.
  - discriminate.
Qed.

(** On comments that are all present, the scan returns or fails an
    assertion. *)
Lemma scan_no_TypeError : forall comments d0,
  Forall (fun c => c <> None) comments ->
  scan_comments comments d0 <> inl TypeError.
Proof.
  induction comments as [|[m|] cs IH]; intros d0 Hall; simpl.
  - discriminate.
  - inversion Hall as [|? ? _ Hcs]; subst.
    destruct (scan_comment_cases m d0) as [E|[[_ E]|(_ & _ & E)]];
      rewrite E; [discriminate | now apply IH..].
  - inversion Hall as [|? ? Hnone _]. contradiction.
Qed.

Lemma scan_kept : forall comments v d,
  scan_comments comments (Some v) = inr d -> d = Some v.
Proof.
  induction comments as [|[m|] cs IH]; intros v d; simpl.
  - now intros [= <-].
  - destruct (scan_comment_cases m (Some v)) as [E|[[_ E]|(_ & Hd & _)]];
      [rewrite E; discriminate | rewrite E; apply IH | discriminate Hd].
  - discriminate.
Qed.

(** A scan that returns gives the last word of any comment that contains
    the marker phrase. *)
Lemma scan_Ok_last_word : forall comments d0 d m,
  scan_comments comments d0 = inr d ->
  In (Some m) comments ->
  Py.str_in marker m = true ->
  d = Some (Py.last_word (Py.split Py.space m)).
Proof.
  induction comments as [|[m'|] cs IH]; intros d0 d m; simpl.
  - intros _ [].
  - intros Hscan [Heq|Hin] Hm.
    + injection Heq as ->.
      destruct (scan_comment_cases m d0) as [E|[[Hm' E]|(_ & _ & E)]];
        rewrite E in Hscan; [discriminate | congruence |].
      now apply scan_kept in Hscan.
    + destruct (scan_comment m' d0) as [e|d1]; [discriminate|].
      now apply (IH d1).
  - discriminate.
Qed.

Lemma scan_no_marker : forall comments d0,
  Forall (fun c => c <> None) comments ->
  marker_count comments = 0 ->
  scan_comments comments d0 = inr d0.
Proof.
  unfold marker_count.
  induction comments as [|[m|] cs IH]; intros d0 Hall; simpl.
  - reflexivity.
  - inversion Hall as [|? ? _ Hcs]; subst.
    unfold scan_comment. destruct (Py.str_in marker m); simpl;
      [discriminate | now apply IH].
  - inversion Hall as [|? ? Hnone _]. contradiction.
Qed.

Lemma scan_comments_app : forall cs1 cs2 d0,
  scan_comments (cs1 ++ cs2) d0
  = match scan_comments cs1 d0 with
    | inl e => inl e
    | inr d => scan_comments cs2 d
    end.
Proof.
  induction cs1 as [|[m|] cs1 IH]; intros cs2 d0; simpl; try reflexivity.
  destruct (scan_comment m d0); [reflexivity | apply IH].
Qed.

(** A comment that contains the marker phrase away from its end fails the
    first assertion, whatever the scan met before. *)
Lemma scan_misplaced : forall comments d0 m,
  Forall (fun c => c <> None) comments ->
  In (Some m) comments ->
  Py.str_in marker m = true ->
  String.eqb
    (Py.join " " (Py.slice_from_end 4 1 (Py.split Py.space m))) marker
  = false ->
  scan_comments comments d0 = inl AssertionError.
Proof.
  induction comments as [|[m'|] cs IH]; intros d0 m Hall; simpl.
  - intros [].
  - inversion Hall as [|? ? _ Hcs]; subst.
    intros [Heq|Hin] Hm Hbad.
    + injection Heq as ->. unfold scan_comment. now rewrite Hm, Hbad.
    + destruct (scan_comment_cases m' d0) as [E|[[_ E]|(_ & _ & E)]];
        rewrite E; [reflexivity | now apply (IH _ m)..].
  - inversion Hall as [|? ? Hnone _]. contradiction.
Qed.

Lemma scan_twice comments :
  Forall (fun c => c <> None) comments ->
  2 <= marker_count comments ->
  scan_comments comments None = inl AssertionError.
Proof.
  intros Hall Htwo.
  destruct (scan_comments comments None) as [[|]|d] eqn:E.
  - reflexivity.
  - now apply scan_no_TypeError in E.
  - apply scan_Ok_count in E. destruct d; simpl in E; lia.
Qed.

End ScanFacts.

(** ** Passes that abort *)

Lemma printers_total np :
  np = FullNote \/ np = ShortNote ->
  forall n a d, exists note, np n (Some a) d = inr note.
Proof.
  intros [-> | ->] n a d; unfold FullNote, ShortNote;
    destruct (String.eqb a "1.0");
    [| destruct (negb _) | | destruct (negb _)];
    destruct d; eauto.
Qed.

Lemma find_deprecated_by_error spec entry_type name e :
  find_deprecated_by spec entry_type name = inl e -> e = AssertionError.
Proof.
  destruct e; [reflexivity|]. intros H.
  now apply scan_no_TypeError in H; [|apply categories_have_comment].
Qed.

Lemma loop_aborts spec entry_type np name :
  (np = FullNote \/ np = ShortNote) ->
  find_deprecated_by spec entry_type name = inl AssertionError ->
  forall fs st,
    Forall (fun o => in_feature o = true) fs ->
    Forall (fun o => match name_of o, added_in_of o with
                     | Some _, Some _ => true
                     | _, _ => false
                     end = true) fs ->
    Exists (fun o => name_of o = Some name) fs ->
    exists evs,
      for_each fs (body spec entry_type np) st
      = Raise AssertionError (trace st ++ evs)
      /\ writes_of name evs = [].
Proof.
  intros Hnp Hfail.
  induction fs as [|o fs IH]; intros st Hfeat Hschema Hex.
  - inversion Hex.
  - inversion Hfeat as [|? ? Ho Hfeat']; subst.
    inversion Hschema as [|? ? Hs Hschema']; subst.
    destruct (name_of o) as [n|] eqn:Hn; [|discriminate].
    destruct (added_in_of o) as [a|] eqn:Ha; [|discriminate].
    simpl. unfold body at 1, entry_body.
    unfold in_feature in Ho. rewrite Ho.
    unfold name_of in Hn. rewrite Hn. simpl percent_s.
    destruct (find_deprecated_by spec entry_type n) as [e|d] eqn:Hscan.
    + apply find_deprecated_by_error in Hscan as ->.
      exists []. simpl. now rewrite app_nil_r.
    + unfold added_in_of, in_feature, container_of in Ha.
      rewrite Ho in Ha. rewrite Ha. unfold write_note.
      destruct (printers_total np Hnp n a d) as [note ->].
      assert (n <> name) as Hne by congruence.
      assert (Exists (fun o => name_of o = Some name) fs) as Hex'.
      { inversion Hex as [? ? Hhead|]; subst; [|assumption].
        unfold name_of in Hhead. congruence. }
      match goal with
      | |- exists _, for_each fs _ ?st1 = _ /\ _ =>
          destruct (IH st1 Hfeat' Hschema' Hex') as (evs & -> & Hw)
      end.
      simpl trace. eexists (_ :: evs). rewrite <- List.app_assoc.
      split; [reflexivity|]. simpl.
      apply String.eqb_neq in Hne. now rewrite Hne.
Qed.

Lemma pass_aborts spec entry_type np tr name o :
  schema_ok spec entry_type = true ->
  (np = FullNote \/ np = ShortNote) ->
  In o (occurrences spec entry_type) ->
  in_feature o = true ->
  name_of o = Some name ->
  find_deprecated_by spec entry_type name = inl AssertionError ->
  exists evs,
    process_xml spec entry_type np tr = Raise AssertionError (tr ++ evs)
    /\ writes_of name evs = [].
Proof.
  intros Hschema Hnp Hin Hfeat Hname Hfail.
  unfold process_xml. rewrite process_loops_flat.
  unfold schema_ok in Hschema. rewrite forallb_forall in Hschema.
  destruct (occurrences_order spec entry_type) as (fs & es & E & Hfs & Hes).
  rewrite E in *. rewrite for_each_app.
  assert (In o fs) as Hin'.
  { apply in_app_or in Hin as [Hin|Hin]; [assumption|].
    rewrite List.Forall_forall in Hes. apply Hes in Hin. congruence. }
  destruct (loop_aborts spec entry_type np name Hnp Hfail fs
              (mkState ∅ 0 0 0 tr) Hfs) as (evs & -> & Hw).
  - apply List.Forall_forall. intros x Hx. apply Hschema, in_or_app. auto.
  - apply List.Exists_exists. eauto.
  - exists evs. auto.
Qed.

Lemma comments_of_app l1 l2 :
  comments_of (l1 ++ l2) = comments_of l1 ++ comments_of l2.
Proof. apply List.map_app. Qed.

(** One iteration for an entry of a feature, and for an entry of an
    extension whose name was not seen. *)
Lemma entry_body_feature spec entry_type np feature entry st name d note :
  get entry "name" = Some name ->
  find_deprecated_by spec entry_type name = inr d ->
  np name (get feature "number") d = inr note ->
  exists st',
    entry_body spec entry_type np "feature" feature entry st = Ok st'
    /\ trace st' = trace st ++ [Wrote name (GetHeader +:+ note +:+ GetFooter)]
    /\ numberOfDeprecatedEntries st'
       = numberOfDeprecatedEntries st + some_count d.
Proof.
  intros Hn Hd Hnote. unfold entry_body, write_note. simpl.
  rewrite Hn. simpl. rewrite Hd, Hnote.
  eexists. split; [reflexivity|]. simpl. split; [reflexivity|].
  destruct d; reflexivity.
Qed.

Lemma entry_body_feature_Ok spec entry_type np feature entry st st' :
  entry_body spec entry_type np "feature" feature entry st = Ok st' ->
  exists n d note,
    get entry "name" = Some n
    /\ find_deprecated_by spec entry_type n = inr d
    /\ np n (get feature "number") d = inr note
    /\ trace st' = trace st ++ [Wrote n (GetHeader +:+ note +:+ GetFooter)]
    /\ numberOfDeprecatedEntries st'
       = numberOfDeprecatedEntries st + some_count d.
Proof.
  unfold entry_body. simpl.
  destruct (find_deprecated_by spec entry_type (percent_s (get entry "name")))
    as [e|d] eqn:Hd; [discriminate|].
  intros H. apply write_note_Ok in H as (n & note & Hn & Hnp & ->).
  rewrite Hn in Hd. exists n, d, note. simpl.
  repeat split; auto. destruct d; reflexivity.
Qed.

Lemma entry_body_feature_aborts spec entry_type np feature entry st name e :
  get entry "name" = Some name ->
  find_deprecated_by spec entry_type name = inl e ->
  entry_body spec entry_type np "feature" feature entry st
  = Raise e (trace st).
Proof.
  intros Hn Hfail. unfold entry_body. simpl. rewrite Hn. simpl.
  now rewrite Hfail.
Qed.

Lemma entry_body_extension spec entry_type np feature entry st name note :
  get entry "name" = Some name ->
  name ∉ seen_apis st ->
  np name (get feature "name") None = inr note ->
  exists st',
    entry_body spec entry_type np "extension" feature entry st = Ok st'
    /\ trace st' = trace st ++ [Wrote name (GetHeader +:+ note +:+ GetFooter)]
    /\ numberOfDeprecatedEntries st' = numberOfDeprecatedEntries st.
Proof.
  intros Hn Hseen Hnote. unfold entry_body, write_note. simpl.
  rewrite Hn. simpl. rewrite bool_decide_eq_false_2 by exact Hseen.
  rewrite Hnote. eexists. split; [reflexivity|]. simpl.
  split; [reflexivity | lia].
Qed.

(** ** Comments the scan takes a version from *)

Lemma scan_comment_ends comment version :
  ends_in_deprecation comment version ->
  one_word Py.space version = true ->
  scan_comment comment None = inr (Some version)
  /\ Py.last_word (Py.split Py.space comment) = version.
Proof.
  intros [->|[text ->]] Hv.
  - assert (Py.split Py.space (marker +:+ " " +:+ version)
            = [] ++ ["deprecated"; "in"; "OpenCL"; version]) as Hwords.
    { change (marker +:+ " " +:+ version)
        with ("deprecated"
              +:+ String Py.space ("in"
              +:+ String Py.space ("OpenCL"
              +:+ String Py.space version))).
      rewrite !split_append, (split_one_word _ _ Hv). reflexivity. }
    unfold scan_comment.
    rewrite (str_in_prefix marker _ (prefix_append marker _)).
    cbv zeta. rewrite Hwords, slice_from_end_4_1, last_word_append.
    split; reflexivity.
  - split; [now apply scan_deprecation_comment|].
    rewrite (deprecation_comment_words _ _ Hv). apply last_word_append.
Qed.

Lemma scan_sole l1 l2 m v :
  Forall (fun c => c <> None) (l1 ++ l2) ->
  marker_count (l1 ++ l2) = 0 ->
  scan_comment m None = inr (Some v) ->
  scan_comments (l1 ++ Some m :: l2) None = inr (Some v).
Proof.
  intros Hall Hcount Hm.
  apply Forall_app in Hall as [H1 H2].
  unfold marker_count in Hcount.
  rewrite List.filter_app, List.length_app in Hcount.
  rewrite scan_comments_app, (scan_no_marker l1 None H1) by
    (unfold marker_count; lia).
  simpl. rewrite Hm.
  apply scan_no_marker; [exact H2 | unfold marker_count; lia].
Qed.

Lemma find_deprecated_by_sole spec entry_type name comment v l1 l2 :
  comments_of (categories spec entry_type name)
  = l1 ++ Some comment :: l2 ->
  marker_count (l1 ++ l2) = 0 ->
  scan_comment comment None = inr (Some v) ->
  find_deprecated_by spec entry_type name = inr (Some v).
Proof.
  intros Hcomments Hcount Hm. unfold find_deprecated_by.
  pose proof (categories_have_comment spec entry_type name) as Hall.
  unfold comments_of in Hcomments, Hall. rewrite Hcomments in *.
  apply scan_sole; [|exact Hcount|exact Hm].
  apply Forall_app in Hall as [H1 H2].
  inversion H2; subst. apply Forall_app. auto.
Qed.

Lemma names_quote_free_name spec entry_type o name :
  names_quote_free spec entry_type = true ->
  In o (occurrences spec entry_type) ->
  name_of o = Some name ->
  quote_free name = true.
Proof.
  unfold names_quote_free. rewrite forallb_forall.
  intros Hall Hin Hn. specialize (Hall o Hin). now rewrite Hn in Hall.
Qed.

(** * The claims *)

(** ** C1: one file per name *)

(** C1, as the script behaves: in a pass that completes, when at most one
    occurrence of a name lies in a feature container, exactly one file is
    written for the name, its text is that of the first occurrence visited
    (feature containers are visited before extension containers), every
    later occurrence lies in an extension container, and the warning is
    printed once for each of them, with no file written. *)
Theorem C1_one_file_first_container
    spec entry_type np tr tr' name first rest :
  process_xml spec entry_type np tr = Ok tr' ->
  List.filter (named name) (occurrences spec entry_type) = first :: rest ->
  length (List.filter in_feature (first :: rest)) <= 1 ->
  exists evs text,
    tr' = tr ++ evs
    /\ text_of spec entry_type np first = Some text
    /\ writes_of name evs = [text]
    /\ Forall (fun o => in_feature o = false) rest
    /\ warnings_of name evs = length rest.
Proof.
  intros Hrun Hocc Hone.
  pose proof (later_occurrences_in_extensions _ _ _ _ _ Hocc Hone) as Hext.
  destruct (pass_first_text _ _ _ _ _ _ _ _ Hrun Hocc) as [text Htext].
  destruct (pass_writes _ _ _ _ _ _ _ _ Hrun Hocc) as [Hw Hwarn].
  apply process_xml_Ok in Hrun as (-> & _ & _).
  exists (pass_events spec entry_type np
          ++ [Printed (pass_summary spec entry_type)]), text.
  rewrite writes_of_app, warnings_of_app.
  unfold pass_summary.
  rewrite summary_no_write, summary_no_warning, app_nil_r, Nat.add_0_r.
  rewrite (filter_all_false _ _ Hext) in Hw. simpl in Hw.
  rewrite Htext in Hw.
  repeat split; auto.
  - destruct (writes_of name (pass_events spec entry_type np))
      as [|t [|t' ts]]; simpl in Hw; try discriminate.
    now injection Hw as ->.
  - rewrite Hwarn. f_equal. apply filter_all_true.
    eapply List.Forall_impl; [|exact Hext]. intros o ->. reflexivity.
Qed.

Lemma C1_one_file_first_container_witness :
  exists evs text,
    [Printed "start"; Wrote "CL_SUCCESS"
       (GetHeader +:+ "// Intentionally empty, CL_SUCCESS has always been present."
        +:+ GetFooter);
     Wrote "CL_DEPTH"
       (GetHeader +:+ "<<unified-spec, Missing before>> version 1.2."
        +:+ GetFooter);
     Printed (warning1 "CL_DEPTH"); Printed warning2;
     Printed "Found 3 API enums, 1 newer than 1.0, 0 are deprecated."]
    = [Printed "start"] ++ evs
    /\ text_of Examples.small "enum" ShortNote
         ("feature", Examples.feature "1.2"
            [Examples.require [Examples.sym "enum" "CL_DEPTH"]],
          Examples.sym "enum" "CL_DEPTH") = Some text
    /\ writes_of "CL_DEPTH" evs = [text]
    /\ Forall (fun o => in_feature o = false)
         [("extension", Examples.extension "cl_khr_depth_images"
            [Examples.require [Examples.sym "enum" "CL_DEPTH"]],
           Examples.sym "enum" "CL_DEPTH")]
    /\ warnings_of "CL_DEPTH" evs = 1.
Proof.
  apply (C1_one_file_first_container Examples.small "enum" ShortNote
           [Printed "start"]).
  - vm_compute. reflexivity.
  - vm_compute. reflexivity.
  - vm_compute. lia.
Defined.

(** C1 fails as stated for two containers of the same type when they are
    features: a name reached from two core versions has its file written
    twice, the text of the second container replacing that of the first,
    and no warning is printed. *)
Lemma C1_counterexample :
  exists tr t1 t2,
    process_xml Registries.two_features "command" FullNote [] = Ok tr
    /\ length (List.filter (named "clFoo")
                 (occurrences Registries.two_features "command")) = 2
    /\ writes_of "clFoo" tr = [t1; t2]
    /\ t1 = GetHeader +:+ Py.nl
            +:+ "// Intentionally empty, clFoo has always been present."
            +:+ GetFooter
    /\ t2 = GetHeader +:+ Py.nl
            +:+ "IMPORTANT: {clFoo} is <<unified-spec, missing before>> version 1.1."
            +:+ GetFooter
    /\ t1 <> t2
    /\ warnings_of "clFoo" tr = 0.
Proof.
  eexists _, _, _. split; [vm_compute; reflexivity|].
  repeat split; try (vm_compute; reflexivity).
  vm_compute. discriminate.
Qed.

(** ** C2: the deprecating version is the trailing word *)

(** C2, as the script behaves: for a symbol of a feature whose name holds
    no double quote, when exactly one of the require groups that have the
    symbol as a child carries a comment containing the marker phrase, and
    that comment is [deprecated in OpenCL X.Y] or ends with a space and
    [deprecated in OpenCL X.Y], [X.Y] having no space in it, the scan
    returns [X.Y], which is the last piece of the comment split at single
    spaces; the iteration for the symbol prints its note with that value
    and counts the symbol as deprecated. *)
Theorem C2_deprecated_by_trailing_word
    spec entry_type name comment version l1 l2 :
  quote_free name = true ->
  comments_of (categories spec entry_type name)
  = l1 ++ Some comment :: l2 ->
  marker_count (l1 ++ l2) = 0 ->
  ends_in_deprecation comment version ->
  one_word Py.space version = true ->
  find_deprecated_by spec entry_type name = inr (Some version)
  /\ Py.last_word (Py.split Py.space comment) = version
  /\ forall np feature entry st note,
       get entry "name" = Some name ->
       np name (get feature "number") (Some version) = inr note ->
       exists st',
         entry_body spec entry_type np "feature" feature entry st = Ok st'
         /\ trace st'
            = trace st ++ [Wrote name (GetHeader +:+ note +:+ GetFooter)]
         /\ numberOfDeprecatedEntries st'
            = numberOfDeprecatedEntries st + 1.
Proof.
  intros _ Hcomments Hcount Hshape Hv.
  destruct (scan_comment_ends _ _ Hshape Hv) as [Hscan Hlast].
  pose proof (find_deprecated_by_sole _ _ _ _ _ _ _ Hcomments Hcount Hscan)
    as Hd.
  split; [exact Hd|]. split; [exact Hlast|].
  intros np feature entry st note Hn Hnote.
  apply (entry_body_feature spec entry_type np feature entry st name
           (Some version) note Hn Hd Hnote).
Qed.

Lemma C2_deprecated_by_trailing_word_witness :
  find_deprecated_by Registries.deprecated_enum "enum" "CL_FOO"
  = inr (Some "3.0")
  /\ Py.last_word
       (Py.split Py.space "enums that were deprecated in OpenCL 3.0")
     = "3.0"
  /\ forall np feature entry st note,
       get entry "name" = Some "CL_FOO" ->
       np "CL_FOO" (get feature "number") (Some "3.0") = inr note ->
       exists st',
         entry_body Registries.deprecated_enum "enum" np "feature" feature
           entry st
         = Ok st'
         /\ trace st'
            = trace st ++ [Wrote "CL_FOO" (GetHeader +:+ note +:+ GetFooter)]
         /\ numberOfDeprecatedEntries st'
            = numberOfDeprecatedEntries st + 1.
Proof.
  apply (C2_deprecated_by_trailing_word Registries.deprecated_enum "enum"
           "CL_FOO" "enums that were deprecated in OpenCL 3.0" "3.0" [] []).
  - reflexivity.
  - vm_compute. reflexivity.
  - reflexivity.
  - right. exists "enums that were". reflexivity.
  - reflexivity.
Defined.

(** C2 fails as stated.  On the comment [x deprecated in OpenCL ], which
    ends in a space, the value extracted is the empty string, while the
    trailing token delimited by white space is [OpenCL].  A comment with
    the marker phrase away from its end, and two comments with the marker
    phrase, give the symbol no value at all. *)
Lemma C2_counterexample :
  comments_of (categories Limits.trailing_space "command" "clFoo")
  = [Some "x deprecated in OpenCL "]
  /\ Py.str_in marker "x deprecated in OpenCL " = true
  /\ find_deprecated_by Limits.trailing_space "command" "clFoo"
     = inr (Some EmptyString)
  /\ List.last (whitespace_tokens "x deprecated in OpenCL ") EmptyString
     = "OpenCL"
  /\ comments_of (categories Registries.marker_misplaced "command" "clFoo")
     = [Some "deprecated in OpenCL 2.0 and later"]
  /\ find_deprecated_by Registries.marker_misplaced "command" "clFoo"
     = inl AssertionError
  /\ find_deprecated_by Registries.feature_deprecated_twice "command" "clFoo"
     = inl AssertionError.
Proof. repeat split; vm_compute; reflexivity. Qed.

(** ** C3: deprecation claimed twice *)

(** C3, as the script behaves: in a registry whose visited containers and
    entries carry their number and name attributes and whose symbol names
    hold no double quote, for a symbol reached through a feature container,
    when two require groups that have the symbol as a child carry comments
    containing the marker phrase, the iteration for the symbol raises an
    assertion failure before any file is opened, the pass aborts with an
    assertion failure, and no file was written for the symbol.  A scan
    that returns met the marker phrase at most once: [deprecated_by] is
    never assigned twice. *)
Theorem C3_deprecated_twice_aborts spec entry_type np tr name o :
  schema_ok spec entry_type = true ->
  names_quote_free spec entry_type = true ->
  (np = FullNote \/ np = ShortNote) ->
  In o (occurrences spec entry_type) ->
  in_feature o = true ->
  name_of o = Some name ->
  2 <= marker_count (comments_of (categories spec entry_type name)) ->
  (forall feature entry st,
      get entry "name" = Some name ->
      entry_body spec entry_type np "feature" feature entry st
      = Raise AssertionError (trace st))
  /\ (exists evs,
         process_xml spec entry_type np tr = Raise AssertionError (tr ++ evs)
         /\ writes_of name evs = [])
  /\ (forall comments d,
         scan_comments comments None = inr d ->
         marker_count comments <= 1).
Proof.
  intros Hschema _ Hnp Hin Hfeat Hname Htwo.
  assert (find_deprecated_by spec entry_type name = inl AssertionError)
    as Hfail.
  { apply scan_twice; [apply categories_have_comment | exact Htwo]. }
  split; [|split].
  - intros feature entry st Hn.
    now apply (entry_body_feature_aborts _ _ _ _ _ _ name).
  - now apply (pass_aborts spec entry_type np tr name o).
  - intros comments d Hscan. apply scan_Ok_count in Hscan.
    destruct d; simpl in Hscan; lia.
Qed.

Lemma C3_deprecated_twice_aborts_witness :
  exists evs,
    process_xml Registries.feature_deprecated_twice "command" FullNote []
    = Raise AssertionError ([] ++ evs)
    /\ writes_of "clFoo" evs = [].
Proof.
  refine (proj1 (proj2
            (C3_deprecated_twice_aborts Registries.feature_deprecated_twice
               "command" FullNote [] "clFoo"
               ("feature",
                Examples.feature "1.0"
                  [Examples.require [Examples.sym "command" "clBar"];
                   Examples.require_c "APIs deprecated in OpenCL 2.0"
                     [Examples.sym "command" "clFoo"];
                   Examples.require_c "APIs deprecated in OpenCL 2.1"
                     [Examples.sym "command" "clFoo"]],
                Examples.sym "command" "clFoo") _ _ _ _ _ _ _))).
  - vm_compute. reflexivity.
  - vm_compute. reflexivity.
  - left. reflexivity.
  - vm_compute. auto.
  - vm_compute. reflexivity.
  - vm_compute. reflexivity.
  - vm_compute. lia.
Defined.

(** C3 fails as stated for a symbol reached only through an extension
    container: two groups claim its deprecation, yet the pass completes and
    writes the symbol's note.  And when an entry without a name is visited
    first, the run ends in a [TypeError], not in an assertion failure. *)
Lemma C3_counterexample :
  marker_count
    (comments_of
       (categories Registries.extension_deprecated_twice "command"
          "clFooKHR")) = 2
  /\ process_xml Registries.extension_deprecated_twice "command" FullNote []
     = Ok [Wrote "clFooKHR"
             (GetHeader +:+ Py.nl
              +:+ "IMPORTANT: clFooKHR requires cl_khr_foo." +:+ GetFooter);
           Printed (warning1 "clFooKHR"); Printed warning2;
           Printed "Found 2 API commands, 1 newer than 1.0, 0 are deprecated."]
  /\ marker_count
       (comments_of
          (categories Limits.nameless_before_twice "command" "clFoo")) = 2
  /\ process_xml Limits.nameless_before_twice "command" FullNote []
     = Raise TypeError [].
Proof. repeat split; vm_compute; reflexivity. Qed.

(** ** C4: symbols of an extension *)

(** C4, as the script behaves: for an entry of an extension container
    whose name attribute starts with [cl_], when the symbol was not seen
    before, the note written says that the symbol requires the extension,
    by its name attribute as it stands; the text depends on nothing else
    in the registry, has no deprecation clause, and the count of
    deprecated entries does not move. *)
Theorem C4_extension_requires
    spec entry_type feature entry st name ext :
  get entry "name" = Some name ->
  get feature "name" = Some ext ->
  Py.first3 ext = "cl_" ->
  name ∉ seen_apis st ->
  (exists st',
      entry_body spec entry_type FullNote "extension" feature entry st
      = Ok st'
      /\ trace st'
         = trace st
           ++ [Wrote name
                 (GetHeader
                  +:+ (Py.nl +:+ "IMPORTANT: " +:+ name +:+ " requires "
                       +:+ ext +:+ ".")
                  +:+ GetFooter)]
      /\ numberOfDeprecatedEntries st' = numberOfDeprecatedEntries st)
  /\ (exists st',
         entry_body spec entry_type ShortNote "extension" feature entry st
         = Ok st'
         /\ trace st'
            = trace st
              ++ [Wrote name
                    (GetHeader
                     +:+ (name +:+ " requires " +:+ ext +:+ ".")
                     +:+ GetFooter)]
         /\ numberOfDeprecatedEntries st' = numberOfDeprecatedEntries st).
Proof.
  intros Hn Hext Hcl Hseen.
  pose proof (first3_cl_not_1_0 _ Hcl) as H10.
  split; apply entry_body_extension; auto; rewrite Hext;
    unfold FullNote, ShortNote; rewrite H10, Hcl; reflexivity.
Qed.

Lemma C4_extension_requires_witness :
  (exists st',
      entry_body Examples.small "enum" FullNote "extension"
        (Examples.extension "cl_khr_depth_images"
           [Examples.require [Examples.sym "enum" "CL_DEPTH"]])
        (Examples.sym "enum" "CL_DEPTH") (mkState ∅ 0 0 0 [])
      = Ok st'
      /\ trace st'
         = [] ++ [Wrote "CL_DEPTH"
                    (GetHeader
                     +:+ (Py.nl +:+ "IMPORTANT: " +:+ "CL_DEPTH"
                          +:+ " requires " +:+ "cl_khr_depth_images" +:+ ".")
                     +:+ GetFooter)]
      /\ numberOfDeprecatedEntries st' = 0)
  /\ (exists st',
         entry_body Examples.small "enum" ShortNote "extension"
           (Examples.extension "cl_khr_depth_images"
              [Examples.require [Examples.sym "enum" "CL_DEPTH"]])
           (Examples.sym "enum" "CL_DEPTH") (mkState ∅ 0 0 0 [])
         = Ok st'
         /\ trace st'
            = [] ++ [Wrote "CL_DEPTH"
                       (GetHeader
                        +:+ ("CL_DEPTH" +:+ " requires "
                             +:+ "cl_khr_depth_images" +:+ ".")
                        +:+ GetFooter)]
         /\ numberOfDeprecatedEntries st' = 0).
Proof.
  apply (C4_extension_requires Examples.small "enum"
           (Examples.extension "cl_khr_depth_images"
              [Examples.require [Examples.sym "enum" "CL_DEPTH"]])
           (Examples.sym "enum" "CL_DEPTH") (mkState ∅ 0 0 0 [])
           "CL_DEPTH" "cl_khr_depth_images").
  - reflexivity.
  - reflexivity.
  - reflexivity.
  - apply not_elem_of_empty.
Defined.

(** C4 fails as stated for an extension whose name does not start with
    [cl_]: the note written says the symbol is missing before a version
    of that name, and does not say that it requires the extension. *)
Lemma C4_counterexample :
  exists text,
    process_xml Registries.unprefixed_extension "command" FullNote []
    = Ok [Wrote "clFoo" text;
          Printed "Found 1 API commands, 1 newer than 1.0, 0 are deprecated."]
    /\ text = GetHeader +:+ Py.nl
              +:+ "IMPORTANT: {clFoo} is <<unified-spec, missing before>> version khr_foo."
              +:+ GetFooter
    /\ Py.str_in "requires" text = false.
Proof.
  eexists. split; [vm_compute; reflexivity|].
  split; vm_compute; reflexivity.
Qed.

(** ** C5: symbols of a version after 1.0 *)

(** C5: for an entry of a feature container whose version [V] is not 1.0
    and does not start with [cl_], when the symbol has no deprecation, the
    note written says that the symbol is missing before version [V], with
    [V] as it stands, in the full form and in the short form. *)
Theorem C5_missing_before spec entry_type feature entry st name V :
  get entry "name" = Some name ->
  get feature "number" = Some V ->
  V <> "1.0" ->
  Py.first3 V <> "cl_" ->
  find_deprecated_by spec entry_type name = inr None ->
  (exists st',
      entry_body spec entry_type FullNote "feature" feature entry st
      = Ok st'
      /\ trace st'
         = trace st
           ++ [Wrote name
                 (GetHeader
                  +:+ (Py.nl +:+ "IMPORTANT: {" +:+ name
                       +:+ "} is <<unified-spec, missing before>> version "
                       +:+ V +:+ ".")
                  +:+ GetFooter)])
  /\ (exists st',
         entry_body spec entry_type ShortNote "feature" feature entry st
         = Ok st'
         /\ trace st'
            = trace st
              ++ [Wrote name
                    (GetHeader
                     +:+ ("<<unified-spec, Missing before>> version "
                          +:+ V +:+ ".")
                     +:+ GetFooter)]).
Proof.
  intros Hn HV H10 Hcl Hd.
  apply String.eqb_neq in H10, Hcl.
  split.
  - destruct (entry_body_feature spec entry_type FullNote feature entry st
                name None
                (Py.nl +:+ "IMPORTANT: {" +:+ name
                 +:+ "} is <<unified-spec, missing before>> version "
                 +:+ V +:+ ".") Hn Hd) as (st' & Hrun & Htr & _).
    + rewrite HV. unfold FullNote. now rewrite H10, Hcl.
    + eauto.
  - destruct (entry_body_feature spec entry_type ShortNote feature entry st
                name None
                ("<<unified-spec, Missing before>> version " +:+ V +:+ ".")
                Hn Hd) as (st' & Hrun & Htr & _).
    + rewrite HV. unfold ShortNote. now rewrite H10, Hcl.
    + eauto.
Qed.

Lemma C5_missing_before_witness :
  (exists st',
      entry_body Examples.small "enum" FullNote "feature"
        (Examples.feature "1.2"
           [Examples.require [Examples.sym "enum" "CL_DEPTH"]])
        (Examples.sym "enum" "CL_DEPTH") (mkState ∅ 0 0 0 [])
      = Ok st'
      /\ trace st'
         = [] ++ [Wrote "CL_DEPTH"
                    (GetHeader
                     +:+ (Py.nl +:+ "IMPORTANT: {" +:+ "CL_DEPTH"
                          +:+ "} is <<unified-spec, missing before>> version "
                          +:+ "1.2" +:+ ".")
                     +:+ GetFooter)])
  /\ (exists st',
         entry_body Examples.small "enum" ShortNote "feature"
           (Examples.feature "1.2"
              [Examples.require [Examples.sym "enum" "CL_DEPTH"]])
           (Examples.sym "enum" "CL_DEPTH") (mkState ∅ 0 0 0 [])
         = Ok st'
         /\ trace st'
            = [] ++ [Wrote "CL_DEPTH"
                       (GetHeader
                        +:+ ("<<unified-spec, Missing before>> version "
                             +:+ "1.2" +:+ ".")
                        +:+ GetFooter)]).
Proof.
  apply (C5_missing_before Examples.small "enum"
           (Examples.feature "1.2"
              [Examples.require [Examples.sym "enum" "CL_DEPTH"]])
           (Examples.sym "enum" "CL_DEPTH") (mkState ∅ 0 0 0 [])
           "CL_DEPTH" "1.2").
  - reflexivity.
  - reflexivity.
  - discriminate.
  - vm_compute. discriminate.
  - vm_compute. reflexivity.
Defined.

(** ** C6: symbols of 1.0 that are not deprecated *)

(** C6: for [added_in] equal to 1.0 and no [deprecated_by], both printers
    return exactly the remark that the symbol has always been present; the
    full form is the short form after a line break, and they differ in
    nothing else.  For an entry of the feature 1.0 for which the scan
    returned no [deprecated_by], that remark is the note written. *)
Theorem C6_always_present spec entry_type feature entry st name :
  get entry "name" = Some name ->
  get feature "number" = Some "1.0" ->
  find_deprecated_by spec entry_type name = inr None ->
  FullNote name (Some "1.0") None
  = inr (Py.nl +:+ "// Intentionally empty, " +:+ name
         +:+ " has always been present.")
  /\ ShortNote name (Some "1.0") None
     = inr ("// Intentionally empty, " +:+ name
            +:+ " has always been present.")
  /\ (exists st',
         entry_body spec entry_type FullNote "feature" feature entry st
         = Ok st'
         /\ trace st'
            = trace st
              ++ [Wrote name
                    (GetHeader
                     +:+ (Py.nl +:+ "// Intentionally empty, " +:+ name
                          +:+ " has always been present.")
                     +:+ GetFooter)])
  /\ (exists st',
         entry_body spec entry_type ShortNote "feature" feature entry st
         = Ok st'
         /\ trace st'
            = trace st
              ++ [Wrote name
                    (GetHeader
                     +:+ ("// Intentionally empty, " +:+ name
                          +:+ " has always been present.")
                     +:+ GetFooter)]).
Proof.
  intros Hn HV Hd.
  split; [reflexivity|]. split; [reflexivity|]. split.
  - destruct (entry_body_feature spec entry_type FullNote feature entry st
                name None _ Hn Hd (f_equal (fun a => FullNote name a None)
                                     HV))
      as (st' & Hrun & Htr & _).
    eauto.
  - destruct (entry_body_feature spec entry_type ShortNote feature entry st
                name None _ Hn Hd (f_equal (fun a => ShortNote name a None)
                                     HV))
      as (st' & Hrun & Htr & _).
    eauto.
Qed.

Lemma C6_always_present_witness :
  FullNote "clFinish" (Some "1.0") None
  = inr (Py.nl +:+ "// Intentionally empty, " +:+ "clFinish"
         +:+ " has always been present.")
  /\ ShortNote "clFinish" (Some "1.0") None
     = inr ("// Intentionally empty, " +:+ "clFinish"
            +:+ " has always been present.")
  /\ (exists st',
         entry_body Examples.small "command" FullNote "feature"
           (Examples.feature "1.0" []) (Examples.sym "command" "clFinish")
           (mkState ∅ 0 0 0 [])
         = Ok st'
         /\ trace st'
            = [] ++ [Wrote "clFinish"
                       (GetHeader
                        +:+ (Py.nl +:+ "// Intentionally empty, "
                             +:+ "clFinish" +:+ " has always been present.")
                        +:+ GetFooter)])
  /\ (exists st',
         entry_body Examples.small "command" ShortNote "feature"
           (Examples.feature "1.0" []) (Examples.sym "command" "clFinish")
           (mkState ∅ 0 0 0 [])
         = Ok st'
         /\ trace st'
            = [] ++ [Wrote "clFinish"
                       (GetHeader
                        +:+ ("// Intentionally empty, " +:+ "clFinish"
                             +:+ " has always been present.")
                        +:+ GetFooter)]).
Proof.
  apply (C6_always_present Examples.small "command"
           (Examples.feature "1.0" []) (Examples.sym "command" "clFinish")
           (mkState ∅ 0 0 0 []) "clFinish").
  - reflexivity.
  - reflexivity.
  - vm_compute. reflexivity.
Defined.

(** ** C7: an enum of 1.0 deprecated in 3.0 *)

(** C7, as the script behaves: for an enum entry of the feature 1.0 whose
    name holds no double quote, when the only comment with the marker
    phrase among the symbol's groups is [deprecated in OpenCL 3.0] or ends
    with a space and [deprecated in OpenCL 3.0], the short-form note
    written is [<<unified-spec, Deprecated by>> version 3.0.]: the words
    [Deprecated by] stand inside a cross reference to [unified-spec]; the
    note has no [IMPORTANT] keyword and does not name the symbol. *)
Theorem C7_short_deprecated_note
    spec feature entry st name comment l1 l2 :
  quote_free name = true ->
  get entry "name" = Some name ->
  get feature "number" = Some "1.0" ->
  comments_of (categories spec "enum" name) = l1 ++ Some comment :: l2 ->
  marker_count (l1 ++ l2) = 0 ->
  ends_in_deprecation comment "3.0" ->
  exists st',
    entry_body spec "enum" ShortNote "feature" feature entry st = Ok st'
    /\ trace st'
       = trace st
         ++ [Wrote name
               (GetHeader
                +:+ "<<unified-spec, Deprecated by>> version 3.0."
                +:+ GetFooter)].
Proof.
  intros _ Hn HV Hcomments Hcount Hshape.
  destruct (scan_comment_ends _ _ Hshape eq_refl) as [Hscan _].
  pose proof (find_deprecated_by_sole _ _ _ _ _ _ _ Hcomments Hcount Hscan)
    as Hd.
  destruct (entry_body_feature spec "enum" ShortNote feature entry st
              name (Some "3.0") _ Hn Hd
              (f_equal (fun a => ShortNote name a (Some "3.0")) HV))
    as (st' & Hrun & Htr & _).
  eauto.
Qed.

Lemma C7_short_deprecated_note_witness :
  exists st',
    entry_body Registries.deprecated_enum "enum" ShortNote "feature"
      (Examples.feature "1.0" []) (Examples.sym "enum" "CL_FOO")
      (mkState ∅ 0 0 0 [])
    = Ok st'
    /\ trace st'
       = [] ++ [Wrote "CL_FOO"
                  (GetHeader
                   +:+ "<<unified-spec, Deprecated by>> version 3.0."
                   +:+ GetFooter)].
Proof.
  apply (C7_short_deprecated_note Registries.deprecated_enum
           (Examples.feature "1.0" []) (Examples.sym "enum" "CL_FOO")
           (mkState ∅ 0 0 0 []) "CL_FOO"
           "enums that were deprecated in OpenCL 3.0" [] []).
  - reflexivity.
  - reflexivity.
  - reflexivity.
  - vm_compute. reflexivity.
  - reflexivity.
  - right. exists "enums that were". reflexivity.
Defined.

(** C7 fails as stated on the text of the note: the short form for an
    enum of 1.0 deprecated in 3.0 is not the bare sentence.  And a comment
    that ends in [deprecated in OpenCL 3.0] with the marker phrase glued
    to the word before it makes the run abort. *)
Lemma C7_counterexample :
  ShortNote "CL_FOO" (Some "1.0") (Some "3.0")
  = inr "<<unified-spec, Deprecated by>> version 3.0."
  /\ ShortNote "CL_FOO" (Some "1.0") (Some "3.0")
     <> inr "Deprecated by version 3.0."
  /\ process_xml Registries.deprecated_enum "enum" ShortNote []
     = Ok [Wrote "CL_FOO"
             (GetHeader +:+ "<<unified-spec, Deprecated by>> version 3.0."
              +:+ GetFooter);
           Printed "Found 1 API enums, 0 newer than 1.0, 1 are deprecated."]
  /\ comments_of (categories Limits.marker_glued "enum" "CL_FOO")
     = [Some "pre-deprecated in OpenCL 3.0"]
  /\ process_xml Limits.marker_glued "enum" ShortNote []
     = Raise AssertionError [].
Proof.
  split; [reflexivity|]. split; [discriminate|].
  repeat split; vm_compute; reflexivity.
Qed.

(** ** C8: the summary line *)

(** C8, with the line as the script prints it: a pass that completes adds,
    after its file writes and warnings, exactly one summary line,
    [Found N API <kind>s, M newer than 1.0, K are deprecated.], where [N]
    counts every occurrence visited, skipped ones included, [M] the
    processed occurrences whose [added_in] is not 1.0 and [K] the
    processed occurrences that have a [deprecated_by]. *)
Theorem C8_summary_line spec entry_type np tr tr' :
  process_xml spec entry_type np tr = Ok tr' ->
  exists evs,
    tr' = tr ++ evs
          ++ [Printed
                ("Found "
                 +:+ Py.str_of_nat (length (occurrences spec entry_type))
                 +:+ " API " +:+ entry_type +:+ "s, "
                 +:+ Py.str_of_nat
                       (length (List.filter is_new
                          (processed ∅ (occurrences spec entry_type))))
                 +:+ " newer than 1.0, "
                 +:+ Py.str_of_nat
                       (length (List.filter (is_deprecated spec entry_type)
                          (processed ∅ (occurrences spec entry_type))))
                 +:+ " are deprecated.")]
    /\ Forall (fun ev => is_summary ev = false) evs.
Proof.
  intros Hrun. apply process_xml_Ok in Hrun as (-> & _ & _).
  exists (pass_events spec entry_type np). split; [reflexivity|].
  apply expected_events_not_summary.
Qed.

Lemma C8_summary_line_witness :
  exists evs,
    [Wrote "clFoo"
       (GetHeader +:+ Py.nl
        +:+ "// Intentionally empty, clFoo has always been present."
        +:+ GetFooter);
     Wrote "clFoo"
       (GetHeader +:+ Py.nl
        +:+ "IMPORTANT: {clFoo} is <<unified-spec, missing before>> version 1.1."
        +:+ GetFooter);
     Printed "Found 2 API commands, 1 newer than 1.0, 0 are deprecated."]
    = [] ++ evs
      ++ [Printed "Found 2 API commands, 1 newer than 1.0, 0 are deprecated."]
    /\ Forall (fun ev => is_summary ev = false) evs.
Proof.
  apply (C8_summary_line Registries.two_features "command" FullNote []).
  vm_compute. reflexivity.
Defined.

(** C8 fails as stated on the wording of the line: the script ends it with
    [K are deprecated.], not [K deprecated]. *)
Lemma C8_counterexample :
  exists evs line,
    process_xml Examples.small "enum" ShortNote [] = Ok (evs ++ [Printed line])
    /\ line = "Found 3 API enums, 1 newer than 1.0, 0 are deprecated."
    /\ line <> "Found 3 API enums, 1 newer than 1.0, 0 deprecated"
    /\ ~ In (Printed "Found 3 API enums, 1 newer than 1.0, 0 deprecated")
           (evs ++ [Printed line]).
Proof.
  eexists [_; _; _; _], _. split; [vm_compute; reflexivity|].
  split; [reflexivity|]. split; [discriminate|].
  simpl. intros [H|[H|[H|[H|[H|[]]]]]]; discriminate H.
Qed.

(** ** C9: a name that is both a command and an enum *)

Lemma main_Ok specpath spec tr :
  main specpath spec = Ok tr ->
  exists evs1 evs2,
    tr = Printed ("Generating version notes from: " +:+ specpath)
         :: evs1 ++ evs2
    /\ process_xml spec "command" FullNote [] = Ok evs1
    /\ process_xml spec "enum" ShortNote [] = Ok evs2.
Proof.
  unfold main.
  rewrite (process_xml_shift spec "command" FullNote [_]).
  destruct (process_xml spec "command" FullNote []) as [evs1|];
    [|discriminate].
  rewrite (process_xml_shift spec "enum" ShortNote (_ ++ _)).
  destruct (process_xml spec "enum" ShortNote []) as [evs2|];
    [|discriminate].
  intros Heq. injection Heq as <-. exists evs1, evs2.
  repeat split; reflexivity.
Qed.

(** C9: when a name occurs both as a command and as an enum, a run that
    completes consists of the command pass followed by the enum pass, each
    producing the events it produces on its own (the set of seen names
    starts empty in each).  The command pass writes the name's file with
    the full-form note of its first command occurrence; the enum pass then
    writes the same file with the short-form note of its first enum
    occurrence, which is never skipped; the only warnings for the name are
    those of later extension occurrences within one kind. *)
Theorem C9_cross_kind_overwrite specpath spec tr name c cs e es :
  main specpath spec = Ok tr ->
  List.filter (named name) (occurrences spec "command") = c :: cs ->
  List.filter (named name) (occurrences spec "enum") = e :: es ->
  exists evs1 evs2,
    tr = Printed ("Generating version notes from: " +:+ specpath)
         :: evs1 ++ evs2
    /\ process_xml spec "command" FullNote [] = Ok evs1
    /\ process_xml spec "enum" ShortNote [] = Ok evs2
    /\ map Some (writes_of name evs1)
       = map (text_of spec "command" FullNote)
           (c :: List.filter in_feature cs)
    /\ map Some (writes_of name evs2)
       = map (text_of spec "enum" ShortNote)
           (e :: List.filter in_feature es)
    /\ warnings_of name tr
       = length (List.filter (fun o => negb (in_feature o)) cs)
         + length (List.filter (fun o => negb (in_feature o)) es).
Proof.
  intros Hmain Hc He.
  apply main_Ok in Hmain as (evs1 & evs2 & -> & H1 & H2).
  exists evs1, evs2.
  destruct (pass_writes _ _ _ _ _ _ _ _ H1 Hc) as [Hw1 Hn1].
  destruct (pass_writes _ _ _ _ _ _ _ _ H2 He) as [Hw2 Hn2].
  pose proof (process_xml_alone _ _ _ _ H1) as E1.
  pose proof (process_xml_alone _ _ _ _ H2) as E2.
  repeat split; auto.
  - rewrite E1, writes_of_app. unfold pass_summary.
    now rewrite summary_no_write, app_nil_r.
  - rewrite E2, writes_of_app. unfold pass_summary.
    now rewrite summary_no_write, app_nil_r.
  - change (Printed ("Generating version notes from: " +:+ specpath)
            :: evs1 ++ evs2)
      with ([Printed ("Generating version notes from: " +:+ specpath)]
            ++ evs1 ++ evs2).
    rewrite !warnings_of_app, E1, E2, !warnings_of_app.
    unfold pass_summary. rewrite !summary_no_warning, Hn1, Hn2.
    change (warnings_of name
              [Printed ("Generating version notes from: " +:+ specpath)])
      with 0.
    lia.
Qed.

Lemma C9_cross_kind_overwrite_witness :
  exists evs1 evs2,
    [Printed "Generating version notes from: cl.xml";
     Wrote "foo"
       (GetHeader +:+ Py.nl
        +:+ "// Intentionally empty, foo has always been present."
        +:+ GetFooter);
     Printed "Found 1 API commands, 0 newer than 1.0, 0 are deprecated.";
     Wrote "foo"
       (GetHeader +:+ "<<unified-spec, Missing before>> version 1.2."
        +:+ GetFooter);
     Printed "Found 1 API enums, 1 newer than 1.0, 0 are deprecated."]
    = Printed ("Generating version notes from: " +:+ "cl.xml")
      :: evs1 ++ evs2
    /\ process_xml Registries.both_kinds "command" FullNote [] = Ok evs1
    /\ process_xml Registries.both_kinds "enum" ShortNote [] = Ok evs2
    /\ map Some (writes_of "foo" evs1)
       = map (text_of Registries.both_kinds "command" FullNote)
           (("feature", Examples.feature "1.0"
               [Examples.require [Examples.sym "command" "foo"]],
             Examples.sym "command" "foo")
            :: List.filter in_feature [])
    /\ map Some (writes_of "foo" evs2)
       = map (text_of Registries.both_kinds "enum" ShortNote)
           (("feature", Examples.feature "1.2"
               [Examples.require [Examples.sym "enum" "foo"]],
             Examples.sym "enum" "foo")
            :: List.filter in_feature [])
    /\ warnings_of "foo"
         [Printed "Generating version notes from: cl.xml";
          Wrote "foo"
            (GetHeader +:+ Py.nl
             +:+ "// Intentionally empty, foo has always been present."
             +:+ GetFooter);
          Printed "Found 1 API commands, 0 newer than 1.0, 0 are deprecated.";
          Wrote "foo"
            (GetHeader +:+ "<<unified-spec, Missing before>> version 1.2."
             +:+ GetFooter);
          Printed "Found 1 API enums, 1 newer than 1.0, 0 are deprecated."]
       = length (List.filter (fun o : occurrence => negb (in_feature o)) [])
         + length (List.filter (fun o : occurrence => negb (in_feature o)) []).
Proof.
  apply (C9_cross_kind_overwrite "cl.xml" Registries.both_kinds).
  - vm_compute. reflexivity.
  - vm_compute. reflexivity.
  - vm_compute. reflexivity.
Defined.

(** ** C10: the marker phrase away from the end of the comment *)

(** C10, as the script behaves: in a registry whose visited containers and
    entries carry their number and name attributes and whose symbol names
    hold no double quote, for a symbol reached through a feature container,
    when a require group that has the symbol as a child carries a comment
    that contains the marker phrase while the fourth-from-last to
    second-from-last pieces of the comment, split at single spaces, are
    not [deprecated in OpenCL], the scan fails an assertion instead of
    returning a version, the iteration for the symbol raises that assertion
    failure, the pass aborts with an assertion failure, and no file was
    written for the symbol. *)
Theorem C10_misplaced_marker_aborts
    spec entry_type np tr name o c comment :
  schema_ok spec entry_type = true ->
  names_quote_free spec entry_type = true ->
  (np = FullNote \/ np = ShortNote) ->
  In o (occurrences spec entry_type) ->
  in_feature o = true ->
  name_of o = Some name ->
  In c (categories spec entry_type name) ->
  get c "comment" = Some comment ->
  Py.str_in marker comment = true ->
  Py.join " " (Py.slice_from_end 4 1 (Py.split Py.space comment))
  <> "deprecated in OpenCL" ->
  find_deprecated_by spec entry_type name = inl AssertionError
  /\ (forall feature entry st,
         get entry "name" = Some name ->
         entry_body spec entry_type np "feature" feature entry st
         = Raise AssertionError (trace st))
  /\ exists evs,
       process_xml spec entry_type np tr = Raise AssertionError (tr ++ evs)
       /\ writes_of name evs = [].
Proof.
  intros Hschema _ Hnp Hin Hfeat Hname Hc Hcomment Hmarker Hbad.
  assert (find_deprecated_by spec entry_type name = inl AssertionError)
    as Hfail.
  { apply (scan_misplaced _ _ comment).
    - apply categories_have_comment.
    - apply in_map_iff. exists c. auto.
    - exact Hmarker.
    - now apply String.eqb_neq. }
  split; [exact Hfail|]. split.
  - intros feature entry st Hn.
    now apply (entry_body_feature_aborts _ _ _ _ _ _ name).
  - now apply (pass_aborts spec entry_type np tr name o).
Qed.

Lemma C10_misplaced_marker_aborts_witness :
  find_deprecated_by Registries.marker_misplaced "command" "clFoo"
  = inl AssertionError
  /\ (forall feature entry st,
         get entry "name" = Some "clFoo" ->
         entry_body Registries.marker_misplaced "command" FullNote "feature"
           feature entry st
         = Raise AssertionError (trace st))
  /\ exists evs,
       process_xml Registries.marker_misplaced "command" FullNote []
       = Raise AssertionError ([] ++ evs)
       /\ writes_of "clFoo" evs = [].
Proof.
  apply (C10_misplaced_marker_aborts Registries.marker_misplaced
           "command" FullNote [] "clFoo"
           ("feature",
            Examples.feature "1.0"
              [Examples.require [Examples.sym "command" "clBar"];
               Examples.require_c "deprecated in OpenCL 2.0 and later"
                 [Examples.sym "command" "clFoo"]],
            Examples.sym "command" "clFoo")
           (Examples.require_c "deprecated in OpenCL 2.0 and later"
              [Examples.sym "command" "clFoo"])
           "deprecated in OpenCL 2.0 and later").
  - vm_compute. reflexivity.
  - vm_compute. reflexivity.
  - left. reflexivity.
  - vm_compute. auto.
  - vm_compute. reflexivity.
  - vm_compute. reflexivity.
  - vm_compute. auto.
  - vm_compute. reflexivity.
  - vm_compute. reflexivity.
  - vm_compute. discriminate.
Defined.

(** C10 fails as stated.  The comment [x deprecated in OpenCL ] contains
    the marker phrase and its fourth-from-last to second-from-last words
    delimited by white space are [x deprecated in], yet the pass completes
    and extracts the empty string.  And when an entry without a name is
    visited first, the run ends in a [TypeError], not in an assertion
    failure. *)
Lemma C10_counterexample :
  comments_of (categories Limits.trailing_space "command" "clFoo")
  = [Some "x deprecated in OpenCL "]
  /\ Py.str_in marker "x deprecated in OpenCL " = true
  /\ Py.join " "
       (Py.slice_from_end 4 1 (whitespace_tokens "x deprecated in OpenCL "))
     = "x deprecated in"
  /\ find_deprecated_by Limits.trailing_space "command" "clFoo"
     = inr (Some EmptyString)
  /\ process_xml Limits.trailing_space "command" FullNote []
     = Ok [Wrote "clFoo"
             (GetHeader +:+ Py.nl
              +:+ "IMPORTANT: {clFoo} is <<unified-spec, deprecated by>> version ."
              +:+ GetFooter);
           Printed "Found 1 API commands, 0 newer than 1.0, 1 are deprecated."]
  /\ comments_of
       (categories Limits.nameless_before_misplaced "command" "clFoo")
     = [Some "deprecated in OpenCL 2.0 and later"]
  /\ process_xml Limits.nameless_before_misplaced "command" FullNote []
     = Raise TypeError [].
Proof. repeat split; vm_compute; reflexivity. Qed.

(** * Further properties of the script *)

(** ** More on strings *)

Section MoreStringFacts.

Lemma split_words (sep : ascii) (s : string) :
  Forall (fun w => one_word sep w = true) (Py.split sep s).
Proof.
  induction s as [|c s IH]; simpl.
  - repeat constructor.
  - destruct (Ascii.eqb c sep) eqn:Hc.
    + constructor; [reflexivity | exact IH].
    + destruct (Py.split sep s) as [|w ws]; [repeat constructor; simpl;
        now rewrite Hc|].
      inversion IH as [|? ? Hw Hws]; subst.
      constructor; [simpl; now rewrite Hc, Hw | exact Hws].
Qed.

Lemma concat_cons_char (sep : string) (c : ascii) w ws :
  String.concat sep (String c w :: ws)
  = String c (String.concat sep (w :: ws)).
Proof. destruct ws; reflexivity. Qed.

(** Joining the words that [split] returned gives the string back. *)
Lemma join_split (sep : ascii) (s : string) :
  Py.join (String sep EmptyString) (Py.split sep s) = s.
Proof.
  unfold Py.join. induction s as [|c s IH]; simpl; [reflexivity|].
  pose proof (split_nonempty sep s) as Hne.
  destruct (Ascii.eqb_spec c sep) as [->|Hc].
  - destruct (Py.split sep s) as [|w ws]; [contradiction|].
    change (String.concat (String sep EmptyString) (EmptyString :: w :: ws))
      with (String sep (String.concat (String sep EmptyString) (w :: ws))).
    now rewrite IH.
  - destruct (Py.split sep s) as [|w ws]; [contradiction|].
    now rewrite concat_cons_char, IH.
Qed.

Lemma concat_app (sep : string) (l1 l2 : list string) :
  l1 <> [] -> l2 <> [] ->
  String.concat sep (l1 ++ l2)
  = String.concat sep l1 +:+ sep +:+ String.concat sep l2.
Proof.
  intros H1 H2. induction l1 as [|x l1 IH]; [contradiction|].
  destruct l1 as [|y l1].
  - simpl. destruct l2; [contradiction | reflexivity].
  - change (String.concat sep ((x :: y :: l1) ++ l2))
      with (x +:+ sep +:+ String.concat sep ((y :: l1) ++ l2)).
    rewrite IH by discriminate.
    change (String.concat sep (x :: y :: l1))
      with (x +:+ sep +:+ String.concat sep (y :: l1)).
    now rewrite !append_assoc.
Qed.

(** A non-empty list is what comes before its slice [[-4:-1]], the slice,
    and its last element. *)
Lemma slice_from_end_decompose {A} (l : list A) (d : A) :
  l <> [] ->
  l = firstn (length l - 4) (firstn (length l - 1) l)
      ++ Py.slice_from_end 4 1 l ++ [List.last l d].
Proof.
  intros Hne. unfold Py.slice_from_end.
  rewrite List.app_assoc, List.firstn_skipn.
  rewrite Nat.sub_1_r, <- List.removelast_firstn_len.
  now apply List.app_removelast_last.
Qed.

End MoreStringFacts.

(** ** More on the deprecation scan *)

Section MoreScanFacts.

(** Comments without the marker phrase play no part in the scan. *)
Lemma scan_filter : forall comments d0,
  Forall (fun c => c <> None) comments ->
  scan_comments (List.filter claims_deprecation comments) d0
  = scan_comments comments d0.
Proof.
  induction comments as [|[m|] cs IH]; intros d0 Hall; simpl.
  - reflexivity.
  - inversion Hall as [|? ? _ Hcs]; subst.
    destruct (Py.str_in marker m) eqn:Hm; simpl.
    + destruct (scan_comment m d0); [reflexivity | now apply IH].
    + unfold scan_comment. rewrite Hm. now apply IH.
  - inversion Hall as [|? ? Hnone _]. contradiction.
Qed.

Lemma filter_Permutation {A} (p : A -> bool) (l l' : list A) :
  Permutation l l' -> Permutation (List.filter p l) (List.filter p l').
Proof.
  induction 1 as [|x l l' _ IH|x y l|l l' l'' _ IH1 _ IH2]; simpl.
  - constructor.
  - destruct (p x); [now constructor | exact IH].
  - destruct (p x), (p y); try reflexivity. constructor.
  - now transitivity (List.filter p l').
Qed.

Lemma Forall_Permutation {A} (P : A -> Prop) (l l' : list A) :
  Permutation l l' -> Forall P l -> Forall P l'.
Proof.
  intros Hp Hall. rewrite List.Forall_forall in *.
  intros x Hx. apply Hall. eapply Permutation_in; [|exact Hx].
  now symmetry.
Qed.

(** What a passing iteration says about the comment: it ends with the
    marker phrase, a space and the word extracted, and that word has no
    space in it. *)
Lemma scan_comment_shape m v :
  scan_comment m None = inr (Some v) ->
  one_word Py.space v = true
  /\ exists text, m = text +:+ marker +:+ " " +:+ v.
Proof.
  unfold scan_comment.
  destruct (Py.str_in marker m); [|discriminate].
  destruct (String.eqb_spec
              (Py.join " " (Py.slice_from_end 4 1 (Py.split Py.space m)))
              marker) as [Hjoin|]; [|discriminate].
  intros Heq. injection Heq as <-.
  pose proof (split_nonempty Py.space m) as Hne.
  pose proof (split_words Py.space m) as Hwords.
  pose proof (join_split Py.space m) as Hback.
  set (words := Py.split Py.space m) in *.
  split.
  - rewrite List.Forall_forall in Hwords. apply Hwords.
    unfold Py.last_word.
    destruct words as [|w ws]; [contradiction|].
    rewrite (List.app_removelast_last EmptyString (l := w :: ws))
      at 2 by discriminate.
    apply in_or_app. right. now left.
  - rewrite (slice_from_end_decompose words EmptyString Hne) in Hback.
    fold (Py.last_word words) in Hback.
    set (before := firstn (length words - 4)
                     (firstn (length words - 1) words)) in *.
    assert (Py.slice_from_end 4 1 words <> []) as Hslice.
    { intros E. rewrite E in Hjoin. discriminate Hjoin. }
    unfold Py.join in *.
    change (String Py.space EmptyString) with " " in Hback.
    assert (String.concat " "
              (Py.slice_from_end 4 1 words ++ [Py.last_word words])
            = marker +:+ " " +:+ Py.last_word words) as Htail.
    { rewrite concat_app by (assumption || discriminate).
      now rewrite Hjoin. }
    destruct before as [|b bs].
    + exists EmptyString. rewrite List.app_nil_l, Htail in Hback.
      now rewrite <- Hback.
    + exists (String.concat " " (b :: bs) +:+ " ").
      rewrite concat_app in Hback.
      * rewrite Htail in Hback. rewrite <- Hback.
        now rewrite !append_assoc.
      * discriminate.
      * destruct (Py.slice_from_end 4 1 words); [contradiction|discriminate].
Qed.

(** A scan that returns a version took it from one of the comments. *)
Lemma scan_Ok_source : forall comments d0 v,
  scan_comments comments d0 = inr (Some v) ->
  d0 = Some v
  \/ exists m, In (Some m) comments /\ scan_comment m None = inr (Some v).
Proof.
  induction comments as [|[m|] cs IH]; intros d0 v; simpl.
  - intros [= ->]. now left.
  - destruct (scan_comment_cases m d0) as [E|[[_ E]|(_ & -> & E)]];
      rewrite E; [discriminate | |].
    + intros H. apply IH in H as [H|(m' & Hin & H)]; [now left|].
      right. exists m'. auto.
    + intros H. apply scan_kept in H. injection H as ->.
      right. exists m. auto.
  - discriminate.
Qed.

End MoreScanFacts.

(** ** X1: the scan depends only on the comments that hold the marker *)

(** X1: the loop over the comments depends only on which of them contain
    the marker phrase, not on their order nor on the other comments: two
    lists of present comments with the same marker comments, in any order,
    scan to the same result, be it a version, nothing, or the assertion
    failure. *)
Theorem X1_scan_depends_on_marker_comments comments comments' :
  Forall (fun c => c <> None) comments ->
  Forall (fun c => c <> None) comments' ->
  Permutation
    (List.filter claims_deprecation comments)
    (List.filter claims_deprecation comments') ->
  scan_comments comments None = scan_comments comments' None.
Proof.
  intros Hall Hall' Hperm.
  rewrite <- (scan_filter comments) by exact Hall.
  rewrite <- (scan_filter comments') by exact Hall'.
  pose proof (Forall_filter _ claims_deprecation _ Hall) as Hf.
  pose proof (Forall_filter _ claims_deprecation _ Hall') as Hf'.
  assert (forall l, marker_count (List.filter claims_deprecation l)
                    = length (List.filter claims_deprecation l)) as Hcount.
  { intros l. unfold marker_count. f_equal.
    apply filter_all_true, List.Forall_forall.
    intros c Hc. now apply filter_In in Hc. }
  destruct (List.filter claims_deprecation comments)
    as [|c1 [|c2 cs]] eqn:E.
  - apply Permutation_nil in Hperm. now rewrite Hperm.
  - apply Permutation_length_1_inv in Hperm. now rewrite Hperm.
  - rewrite (scan_twice (c1 :: c2 :: cs)).
    + symmetry. apply scan_twice; [exact Hf'|].
      rewrite Hcount, <- (Permutation_length Hperm). simpl. lia.
    + exact Hf.
    + rewrite <- E, Hcount, E. simpl. lia.
Qed.

Lemma X1_scan_depends_on_marker_comments_witness :
  scan_comments
    [Some "cl_bool"; Some "APIs deprecated in OpenCL 2.1";
     Some "APIs deprecated in OpenCL 2.0"] None
  = scan_comments
      [Some "APIs deprecated in OpenCL 2.0";
       Some "APIs deprecated in OpenCL 2.1"] None.
Proof.
  apply X1_scan_depends_on_marker_comments.
  - repeat constructor; discriminate.
  - repeat constructor; discriminate.
  - vm_compute. apply perm_swap.
Defined.

(** ** X2: what an extracted version looks like *)

(** X2: whenever the loop over the comments ends with a [deprecated_by],
    one of the comments ends with [deprecated in OpenCL], a space and that
    very value, and the value has no space in it. *)
Theorem X2_deprecated_by_ends_comment comments v :
  scan_comments comments None = inr (Some v) ->
  one_word Py.space v = true
  /\ exists text,
       In (Some (text +:+ "deprecated in OpenCL " +:+ v)) comments.
Proof.
  intros Hscan.
  apply scan_Ok_source in Hscan as [Hd|(m & Hin & Hm)]; [discriminate|].
  apply scan_comment_shape in Hm as [Hv [text ->]].
  split; [exact Hv|]. exists text. exact Hin.
Qed.

Lemma X2_deprecated_by_ends_comment_witness :
  one_word Py.space "3.0" = true
  /\ exists text,
       In (Some (text +:+ "deprecated in OpenCL " +:+ "3.0"))
          [Some "cl_bool"; Some "enums that were deprecated in OpenCL 3.0"].
Proof.
  apply (X2_deprecated_by_ends_comment
           [Some "cl_bool"; Some "enums that were deprecated in OpenCL 3.0"]
           "3.0").
  vm_compute. reflexivity.
Defined.

(** ** X3: no marker phrase, no deprecation *)

(** X3: on comments that are all present, the loop ends without a
    [deprecated_by] exactly when none of them contains the marker
    phrase. *)
Theorem X3_not_deprecated_iff_no_marker comments :
  Forall (fun c => c <> None) comments ->
  (scan_comments comments None = inr None <-> marker_count comments = 0).
Proof.
  intros Hall. split.
  - intros H. apply scan_Ok_count in H. simpl in H. lia.
  - intros H. now apply scan_no_marker.
Qed.

Lemma X3_not_deprecated_iff_no_marker_witness :
  scan_comments [Some "cl_bool"; Some "cl_mem_flags"] None = inr None
  <-> marker_count [Some "cl_bool"; Some "cl_mem_flags"] = 0.
Proof.
  apply X3_not_deprecated_iff_no_marker.
  repeat constructor; discriminate.
Defined.

(** ** X4: an extension name drops the deprecation *)

(** X4: for an [added_in] that starts with [cl_], both printers return the
    remark that the symbol requires it, whatever [deprecated_by] is: a
    deprecation given together with an extension name is left out of the
    note. *)
Theorem X4_extension_name_drops_deprecation name ext d :
  Py.first3 ext = "cl_" ->
  FullNote name (Some ext) d
  = inr (Py.nl +:+ "IMPORTANT: " +:+ name +:+ " requires " +:+ ext +:+ ".")
  /\ ShortNote name (Some ext) d
     = inr (name +:+ " requires " +:+ ext +:+ ".").
Proof.
  intros Hcl. pose proof (first3_cl_not_1_0 _ Hcl) as H10.
  unfold FullNote, ShortNote. now rewrite H10, Hcl.
Qed.

Lemma X4_extension_name_drops_deprecation_witness :
  FullNote "clFoo" (Some "cl_khr_foo") (Some "2.0")
  = inr (Py.nl +:+ "IMPORTANT: " +:+ "clFoo" +:+ " requires "
         +:+ "cl_khr_foo" +:+ ".")
  /\ ShortNote "clFoo" (Some "cl_khr_foo") (Some "2.0")
     = inr ("clFoo" +:+ " requires " +:+ "cl_khr_foo" +:+ ".").
Proof.
  apply (X4_extension_name_drops_deprecation "clFoo" "cl_khr_foo"
           (Some "2.0")).
  reflexivity.
Defined.

(** ** X5, X6: a container without its attribute *)

Lemma printers_need_added_in np :
  np = FullNote \/ np = ShortNote ->
  forall n d, np n None d = inl TypeError.
Proof. intros [-> | ->] n d; reflexivity. Qed.

(** X5: when a feature carries no [number] attribute, the iteration for
    one of its named entries, once the scan has returned, opens the
    symbol's file, writes the header and then raises a [TypeError]: the
    file is left holding the header alone. *)
Theorem X5_feature_without_number
    spec entry_type np feature entry st name d :
  (np = FullNote \/ np = ShortNote) ->
  get entry "name" = Some name ->
  get feature "number" = None ->
  find_deprecated_by spec entry_type name = inr d ->
  entry_body spec entry_type np "feature" feature entry st
  = Raise TypeError (trace st ++ [Wrote name GetHeader]).
Proof.
  intros Hnp Hn Hnum Hd. unfold entry_body, write_note. simpl.
  rewrite Hn. simpl. rewrite Hd, Hnum.
  now rewrite (printers_need_added_in np Hnp).
Qed.

Lemma X5_feature_without_number_witness :
  entry_body Examples.small "command" FullNote "feature"
    (Elem "feature" [("api", "opencl")] [])
    (Examples.sym "command" "clFinish") (mkState ∅ 0 0 0 [])
  = Raise TypeError ([] ++ [Wrote "clFinish" GetHeader]).
Proof.
  apply (X5_feature_without_number Examples.small "command" FullNote
           (Elem "feature" [("api", "opencl")] [])
           (Examples.sym "command" "clFinish") (mkState ∅ 0 0 0 [])
           "clFinish" None).
  - left. reflexivity.
  - reflexivity.
  - reflexivity.
  - vm_compute. reflexivity.
Defined.

(** X6: when an extension carries no [name] attribute, the iteration for
    one of its named entries that was not seen before leaves the symbol's
    file holding the header alone and raises a [TypeError]; an entry whose
    name was seen is skipped with the warning all the same. *)
Theorem X6_extension_without_name
    spec entry_type np feature entry st name :
  (np = FullNote \/ np = ShortNote) ->
  get entry "name" = Some name ->
  get feature "name" = None ->
  (name ∉ seen_apis st ->
   entry_body spec entry_type np "extension" feature entry st
   = Raise TypeError (trace st ++ [Wrote name GetHeader]))
  /\ (name ∈ seen_apis st ->
      exists st',
        entry_body spec entry_type np "extension" feature entry st = Ok st'
        /\ trace st'
           = trace st ++ [Printed (warning1 name); Printed warning2]).
Proof.
  intros Hnp Hn Hext. unfold entry_body, write_note. simpl.
  rewrite Hn. simpl. split; intros Hseen.
  - rewrite bool_decide_eq_false_2 by exact Hseen.
    now rewrite Hext, (printers_need_added_in np Hnp).
  - rewrite bool_decide_eq_true_2 by exact Hseen.
    eexists. split; reflexivity.
Qed.

Lemma X6_extension_without_name_witness :
  ("clFooKHR" ∉ seen_apis (mkState ∅ 0 0 0 []) ->
   entry_body Examples.small "command" ShortNote "extension"
     (Elem "extension" [] []) (Examples.sym "command" "clFooKHR")
     (mkState ∅ 0 0 0 [])
   = Raise TypeError ([] ++ [Wrote "clFooKHR" GetHeader]))
  /\ ("clFooKHR" ∈ seen_apis (mkState ∅ 0 0 0 []) ->
      exists st',
        entry_body Examples.small "command" ShortNote "extension"
          (Elem "extension" [] []) (Examples.sym "command" "clFooKHR")
          (mkState ∅ 0 0 0 [])
        = Ok st'
        /\ trace st'
           = [] ++ [Printed (warning1 "clFooKHR"); Printed warning2]).
Proof.
  apply (X6_extension_without_name Examples.small "command" ShortNote
           (Elem "extension" [] []) (Examples.sym "command" "clFooKHR")
           (mkState ∅ 0 0 0 []) "clFooKHR").
  - right. reflexivity.
  - reflexivity.
  - reflexivity.
Defined.

(** ** X7: an entry without a name *)

(** X7: the iteration for an entry that carries no [name] attribute never
    completes and writes nothing.  It raises a [TypeError], unless the
    entry lies in a feature and the scan, run for the name [None] spelled
    out, fails first. *)
Theorem X7_entry_without_name
    spec entry_type np feature_type feature entry st :
  get entry "name" = None ->
  exists e,
    entry_body spec entry_type np feature_type feature entry st
    = Raise e (trace st)
    /\ (e = TypeError
        \/ (feature_type = "feature"
            /\ find_deprecated_by spec entry_type "None" = inl e)).
Proof.
  intros Hn. unfold entry_body, write_note. simpl. rewrite Hn. simpl.
  destruct (String.eqb_spec feature_type "feature") as [->|Hft].
  - destruct (find_deprecated_by spec entry_type "None") as [e|d] eqn:Hd.
    + exists e. auto.
    + exists TypeError. auto.
  - exists TypeError. auto.
Qed.

Lemma X7_entry_without_name_witness :
  exists e,
    entry_body Examples.small "command" FullNote "extension"
      (Examples.extension "cl_khr_foo" []) (Elem "command" [] [])
      (mkState ∅ 0 0 0 [])
    = Raise e []
    /\ (e = TypeError
        \/ ("extension" = "feature"
            /\ find_deprecated_by Examples.small "command" "None" = inl e)).
Proof.
  apply (X7_entry_without_name Examples.small "command" FullNote "extension"
           (Examples.extension "cl_khr_foo" []) (Elem "command" [] [])
           (mkState ∅ 0 0 0 [])).
  reflexivity.
Defined.

(** ** More on passes that complete *)

Section MorePassFacts.

Variables (spec : Element) (entry_type : string) (np : printer).

Lemma processed_duplicates_length : forall occs earlier,
  length (processed earlier occs) + length (duplicates earlier occs)
  = length occs.
Proof.
  induction occs as [|o occs IH]; intros earlier; simpl; [reflexivity|].
  rewrite !List.length_app, <- (IH (met earlier o)).
  destruct (skipped earlier o); simpl; lia.
Qed.

Lemma duplicates_in_extensions : forall occs earlier,
  length (duplicates earlier occs)
  <= length (List.filter (fun o => negb (in_feature o)) occs).
Proof.
  induction occs as [|o occs IH]; intros earlier; simpl; [lia|].
  rewrite List.length_app. specialize (IH (met earlier o)).
  unfold skipped. destruct (in_feature o); simpl; [lia|].
  destruct (match name_of o with Some n => _ | None => _ end); simpl; lia.
Qed.

Lemma processed_filter_length (p : occurrence -> bool) : forall occs earlier,
  length (List.filter p (processed earlier occs))
  <= length (List.filter p occs).
Proof.
  induction occs as [|o occs IH]; intros earlier; simpl; [lia|].
  rewrite List.filter_app, List.length_app. specialize (IH (met earlier o)).
  destruct (skipped earlier o); simpl; destruct (p o); simpl; lia.
Qed.

Lemma features_processed : forall occs earlier o,
  In o occs -> in_feature o = true -> In o (processed earlier occs).
Proof.
  induction occs as [|o' occs IH]; intros earlier o; simpl; [intros []|].
  intros [->|Hin] Hfeat; apply in_or_app.
  - left. unfold skipped. rewrite Hfeat. simpl. now left.
  - right. now apply IH.
Qed.

Lemma processed_incl : forall occs earlier o,
  In o (processed earlier occs) -> In o occs.
Proof.
  induction occs as [|o' occs IH]; intros earlier o; simpl; [intros []|].
  intros Hin. apply in_app_or in Hin as [Hin|Hin].
  - destruct (skipped earlier o'); [destruct Hin|].
    destruct Hin as [->|[]]. now left.
  - right. now apply (IH (met earlier o')).
Qed.

Lemma is_deprecated_in_feature o :
  is_deprecated spec entry_type o = true -> in_feature o = true.
Proof.
  unfold is_deprecated, deprecated_by_of.
  destruct (in_feature o); [reflexivity | discriminate].
Qed.

Lemma expected_counts : forall occs earlier,
  Forall (fun o => name_of o <> None) occs ->
  Forall (fun o => text_of spec entry_type np o <> None)
    (processed earlier occs) ->
  length (List.filter is_wrote
            (expected_events spec entry_type np earlier occs))
  = length (processed earlier occs)
  /\ length (List.filter is_warning
               (expected_events spec entry_type np earlier occs))
     = length (duplicates earlier occs).
Proof.
  induction occs as [|o occs IH]; intros earlier Hnames Htexts; simpl;
    [auto|].
  inversion Hnames as [|? ? Hn Hnames']; subst.
  apply Forall_app in Htexts as [Ho Htexts'].
  destruct (IH _ Hnames' Htexts') as [IHw IHp].
  rewrite !List.filter_app, !List.length_app, IHw, IHp.
  unfold events_of.
  destruct (name_of o) as [n|]; [|contradiction].
  destruct (skipped earlier o); simpl.
  - auto.
  - inversion Ho as [|? ? Ht _]; subst.
    destruct (text_of spec entry_type np o); [auto | contradiction].
Qed.

Lemma text_of_shape o t :
  text_of spec entry_type np o = Some t ->
  exists note, t = GetHeader +:+ note +:+ GetFooter.
Proof.
  unfold text_of. destruct (name_of o) as [n|]; [|discriminate].
  destruct (deprecated_by_of spec entry_type o) as [e|d]; [discriminate|].
  destruct (np n (added_in_of o) d) as [e|note]; [discriminate|].
  intros [= <-]. eauto.
Qed.

Lemma expected_events_files : forall occs earlier,
  Forall
    (fun ev =>
       match ev with
       | Wrote n t =>
           (exists o, In o occs /\ name_of o = Some n)
           /\ exists note, t = GetHeader +:+ note +:+ GetFooter
       | Printed _ => True
       end)
    (expected_events spec entry_type np earlier occs).
Proof.
  induction occs as [|o occs IH]; intros earlier; simpl; [constructor|].
  apply Forall_app. split.
  - unfold events_of. destruct (name_of o) as [n|] eqn:Hn; [|constructor].
    destruct (skipped earlier o); [repeat constructor|].
    destruct (text_of spec entry_type np o) as [t|] eqn:Ht; [|constructor].
    constructor; [|constructor]. split.
    + exists o. split; [now left | exact Hn].
    + now apply (text_of_shape o).
  - eapply List.Forall_impl; [|apply IH].
    intros [n t|l]; [|auto]. intros [(o' & Hin & Hn) Hshape].
    split; [|exact Hshape]. exists o'. split; [now right | exact Hn].
Qed.

Lemma filter_length_mono {A} (p q : A -> bool) (l : list A) :
  (forall a, p a = true -> q a = true) ->
  length (List.filter p l) <= length (List.filter q l).
Proof.
  intros Hpq. induction l as [|a l IH]; simpl; [lia|].
  destruct (p a) eqn:Hp.
  - rewrite (Hpq a Hp). simpl. lia.
  - destruct (q a); simpl; lia.
Qed.

Lemma last_cons_default {A} (a : A) (l : list A) :
  List.last (a :: l) a = List.last l a.
Proof. destruct l; reflexivity. Qed.

Lemma last_map_Some {A} (f : A -> option string) :
  forall (l : list string) (l' : list A) d d',
    map Some l = map f l' -> l' <> [] ->
    f (List.last l' d') = Some (List.last l d).
Proof.
  induction l as [|x l IH]; intros [|y l'] d d' Heq Hne;
    try discriminate; try contradiction.
  simpl in Heq. injection Heq as Hx Heq.
  destruct l' as [|z l'].
  - destruct l; [|discriminate]. simpl. now symmetry.
  - destruct l as [|x' l]; [discriminate|].
    change (List.last (y :: z :: l') d') with (List.last (z :: l') d').
    change (List.last (x :: x' :: l) d) with (List.last (x' :: l) d).
    now apply IH.
Qed.

End MorePassFacts.

(** ** X8: what a pass that completes says about the registry *)

(** X8: a pass with one of the script's two printers completes only if
    every entry visited carries a name, every feature visited carries a
    number, and every container of an entry that was not skipped carries
    the attribute [added_in] is read from. *)
Theorem X8_completed_pass_needs_attributes spec entry_type np tr tr' :
  (np = FullNote \/ np = ShortNote) ->
  process_xml spec entry_type np tr = Ok tr' ->
  Forall (fun o => name_of o <> None) (occurrences spec entry_type)
  /\ Forall (fun o => in_feature o = true ->
                      get (container_of o) "number" <> None)
       (occurrences spec entry_type)
  /\ Forall (fun o => added_in_of o <> None)
       (processed ∅ (occurrences spec entry_type)).
Proof.
  intros Hnp Hrun. apply process_xml_Ok in Hrun as (_ & Hnames & Htexts).
  assert (Forall (fun o => added_in_of o <> None)
            (processed ∅ (occurrences spec entry_type))) as Hadded.
  { eapply List.Forall_impl; [|exact Htexts].
    intros o Ht Hnone. apply Ht. unfold text_of.
    destruct (name_of o); [|reflexivity].
    destruct (deprecated_by_of spec entry_type o); [reflexivity|].
    now rewrite Hnone, (printers_need_added_in np Hnp). }
  repeat split; auto.
  apply List.Forall_forall. intros o Hin Hfeat.
  rewrite List.Forall_forall in Hadded.
  specialize (Hadded o (features_processed _ _ _ Hin Hfeat)).
  unfold added_in_of in Hadded. now rewrite Hfeat in Hadded.
Qed.

Lemma X8_completed_pass_needs_attributes_witness :
  Forall (fun o => name_of o <> None) (occurrences Examples.small "enum")
  /\ Forall (fun o => in_feature o = true ->
                      get (container_of o) "number" <> None)
       (occurrences Examples.small "enum")
  /\ Forall (fun o => added_in_of o <> None)
       (processed ∅ (occurrences Examples.small "enum")).
Proof.
  eapply (X8_completed_pass_needs_attributes Examples.small "enum"
            ShortNote []).
  - right. reflexivity.
  - vm_compute. reflexivity.
Defined.

(** ** X9: every entry is written or warned about, once *)

(** X9: in a pass that completes, the files written and the warnings
    printed add up to the entries visited, one event per entry, and there
    are no more warnings than entries in extension containers: an entry of
    a feature always has its file written. *)
Theorem X9_one_event_per_entry spec entry_type np tr tr' :
  process_xml spec entry_type np tr = Ok tr' ->
  exists evs,
    tr' = tr ++ evs
    /\ length (List.filter is_wrote evs) + length (List.filter is_warning evs)
       = length (occurrences spec entry_type)
    /\ length (List.filter is_warning evs)
       <= length (List.filter (fun o => negb (in_feature o))
                    (occurrences spec entry_type)).
Proof.
  intros Hrun. apply process_xml_Ok in Hrun as (-> & Hnames & Htexts).
  exists (pass_events spec entry_type np
          ++ [Printed (pass_summary spec entry_type)]).
  split; [reflexivity|].
  destruct (expected_counts spec entry_type np _ _ Hnames Htexts)
    as [Hw Hp].
  rewrite !List.filter_app, !List.length_app.
  unfold pass_events. rewrite Hw, Hp.
  change (List.filter is_wrote [Printed (pass_summary spec entry_type)])
    with (@nil event).
  change (List.filter is_warning [Printed (pass_summary spec entry_type)])
    with (@nil event).
  simpl. rewrite !Nat.add_0_r. split.
  - apply processed_duplicates_length.
  - apply duplicates_in_extensions.
Qed.

Lemma X9_one_event_per_entry_witness :
  exists evs,
    [Wrote "CL_SUCCESS"
       (GetHeader +:+ "// Intentionally empty, CL_SUCCESS has always been present."
        +:+ GetFooter);
     Wrote "CL_DEPTH"
       (GetHeader +:+ "<<unified-spec, Missing before>> version 1.2."
        +:+ GetFooter);
     Printed (warning1 "CL_DEPTH"); Printed warning2;
     Printed "Found 3 API enums, 1 newer than 1.0, 0 are deprecated."]
    = [] ++ evs
    /\ length (List.filter is_wrote evs) + length (List.filter is_warning evs)
       = length (occurrences Examples.small "enum")
    /\ length (List.filter is_warning evs)
       <= length (List.filter (fun o => negb (in_feature o))
                    (occurrences Examples.small "enum")).
Proof.
  apply (X9_one_event_per_entry Examples.small "enum" ShortNote []).
  vm_compute. reflexivity.
Defined.

(** ** X10: the counters stay within the entries *)

(** X10: when the loops complete, [numberOfEntries] is the number of
    entries visited, [numberOfNewEntries] does not exceed it, and
    [numberOfDeprecatedEntries] does not exceed the number of entries
    visited in feature containers. *)
Theorem X10_counters_bounded spec entry_type np tr st :
  process_loops spec entry_type np (mkState ∅ 0 0 0 tr) = Ok st ->
  numberOfEntries st = length (occurrences spec entry_type)
  /\ numberOfNewEntries st <= numberOfEntries st
  /\ numberOfDeprecatedEntries st
     <= length (List.filter in_feature (occurrences spec entry_type)).
Proof.
  rewrite process_loops_flat. intros Hrun.
  apply loop_Ok in Hrun as (_ & H1 & H2 & H3 & _ & _). simpl in *.
  rewrite H1, H2, H3. split; [reflexivity|]. split.
  - etransitivity; [apply List.filter_length_le|].
    rewrite <- (processed_duplicates_length (occurrences spec entry_type) ∅).
    lia.
  - etransitivity; [|apply (processed_filter_length in_feature)].
    apply filter_length_mono.
    apply (is_deprecated_in_feature spec entry_type).
Qed.

Lemma X10_counters_bounded_witness :
  exists st,
    process_loops Examples.small "enum" ShortNote (mkState ∅ 0 0 0 []) = Ok st
    /\ numberOfEntries st = length (occurrences Examples.small "enum")
    /\ numberOfNewEntries st <= numberOfEntries st
    /\ numberOfDeprecatedEntries st
       <= length (List.filter in_feature (occurrences Examples.small "enum")).
Proof.
  eexists. split.
  - vm_compute. reflexivity.
  - apply (X10_counters_bounded Examples.small "enum" ShortNote []).
    vm_compute. reflexivity.
Defined.

(** ** X11: the files of a pass that completes *)

(** X11: every file written in a pass that completes belongs to a name
    some visited entry carries, and holds the header, a note and the
    footer, in that order. *)
Theorem X11_files_are_whole spec entry_type np tr tr' :
  process_xml spec entry_type np tr = Ok tr' ->
  exists evs,
    tr' = tr ++ evs
    /\ Forall
         (fun ev =>
            match ev with
            | Wrote n t =>
                (exists o,
                    In o (occurrences spec entry_type) /\ name_of o = Some n)
                /\ exists note, t = GetHeader +:+ note +:+ GetFooter
            | Printed _ => True
            end)
         evs.
Proof.
  intros Hrun. apply process_xml_Ok in Hrun as (-> & _ & _).
  exists (pass_events spec entry_type np
          ++ [Printed (pass_summary spec entry_type)]).
  split; [reflexivity|]. apply Forall_app. split.
  - apply expected_events_files.
  - repeat constructor.
Qed.

Lemma X11_files_are_whole_witness :
  exists evs,
    [Wrote "CL_FOO"
       (GetHeader +:+ "<<unified-spec, Deprecated by>> version 3.0."
        +:+ GetFooter);
     Printed "Found 1 API enums, 0 newer than 1.0, 1 are deprecated."]
    = [] ++ evs
    /\ Forall
         (fun ev =>
            match ev with
            | Wrote n t =>
                (exists o,
                    In o (occurrences Registries.deprecated_enum "enum")
                    /\ name_of o = Some n)
                /\ exists note, t = GetHeader +:+ note +:+ GetFooter
            | Printed _ => True
            end)
         evs.
Proof.
  apply (X11_files_are_whole Registries.deprecated_enum "enum" ShortNote []).
  vm_compute. reflexivity.
Defined.

(** ** X12: the text a file is left with *)

(** X12: in a pass that completes, a name's file is written once for its
    first occurrence and once more for each later occurrence in a feature
    container, so it is left with the note of the last occurrence in a
    feature container after the first one, or with the note of the first
    occurrence when there is none. *)
Theorem X12_last_feature_wins spec entry_type np tr tr' name first rest :
  process_xml spec entry_type np tr = Ok tr' ->
  List.filter (named name) (occurrences spec entry_type) = first :: rest ->
  exists evs text,
    tr' = tr ++ evs
    /\ length (writes_of name evs)
       = 1 + length (List.filter in_feature rest)
    /\ text_of spec entry_type np
         (List.last (List.filter in_feature rest) first) = Some text
    /\ List.last (writes_of name evs) EmptyString = text.
Proof.
  intros Hrun Hocc.
  destruct (pass_writes _ _ _ _ _ _ _ _ Hrun Hocc) as [Hw _].
  apply process_xml_Ok in Hrun as (-> & _ & _).
  exists (pass_events spec entry_type np
          ++ [Printed (pass_summary spec entry_type)]).
  exists (List.last (writes_of name (pass_events spec entry_type np))
            EmptyString).
  split; [reflexivity|].
  rewrite writes_of_app. unfold pass_summary.
  rewrite summary_no_write, app_nil_r.
  split; [|split; [|reflexivity]].
  - apply (f_equal (@length _)) in Hw.
    rewrite !List.length_map in Hw. exact Hw.
  - rewrite <- (last_cons_default first).
    apply last_map_Some; [exact Hw | discriminate].
Qed.

Lemma X12_last_feature_wins_witness :
  exists evs text,
    [Wrote "clFoo"
       (GetHeader +:+ Py.nl
        +:+ "// Intentionally empty, clFoo has always been present."
        +:+ GetFooter);
     Wrote "clFoo"
       (GetHeader +:+ Py.nl
        +:+ "IMPORTANT: {clFoo} is <<unified-spec, missing before>> version 1.1."
        +:+ GetFooter);
     Printed "Found 2 API commands, 1 newer than 1.0, 0 are deprecated."]
    = [] ++ evs
    /\ length (writes_of "clFoo" evs)
       = 1 + length
               (List.filter in_feature
                  [("feature",
                    Examples.feature "1.1"
                      [Examples.require [Examples.sym "command" "clFoo"]],
                    Examples.sym "command" "clFoo")])
    /\ text_of Registries.two_features "command" FullNote
         (List.last
            (List.filter in_feature
               [("feature",
                 Examples.feature "1.1"
                   [Examples.require [Examples.sym "command" "clFoo"]],
                 Examples.sym "command" "clFoo")])
            ("feature",
             Examples.feature "1.0"
               [Examples.require [Examples.sym "command" "clFoo"]],
             Examples.sym "command" "clFoo")) = Some text
    /\ List.last (writes_of "clFoo" evs) EmptyString = text.
Proof.
  apply (X12_last_feature_wins Registries.two_features "command" FullNote []).
  - vm_compute. reflexivity.
  - vm_compute. reflexivity.
Defined.

(** ** X13: files are written for the names visited, and no others *)

(** X13: in a pass that completes, a name has a file written exactly when
    some visited entry carries it, and a name without a file has no
    warning either: a warning is only ever printed for a name whose file
    the pass writes. *)
Theorem X13_written_iff_visited spec entry_type np tr tr' :
  process_xml spec entry_type np tr = Ok tr' ->
  exists evs,
    tr' = tr ++ evs
    /\ forall name,
         (writes_of name evs = []
          <-> List.filter (named name) (occurrences spec entry_type) = [])
         /\ (writes_of name evs = [] -> warnings_of name evs = 0).
Proof.
  intros Hrun.
  pose proof Hrun as Hrun'.
  apply process_xml_Ok in Hrun' as (E & Hnames & Htexts).
  exists (pass_events spec entry_type np
          ++ [Printed (pass_summary spec entry_type)]).
  split; [exact E|]. intros name.
  rewrite writes_of_app, warnings_of_app. unfold pass_summary.
  rewrite summary_no_write, summary_no_warning, app_nil_r, Nat.add_0_r.
  destruct (List.filter (named name) (occurrences spec entry_type))
    as [|first rest] eqn:Hocc.
  - assert (writes_of name (pass_events spec entry_type np) = []) as Hw.
    { apply (List.map_eq_nil Some). unfold pass_events.
      rewrite writes_of_expected by exact Htexts.
      rewrite processed_named_fresh by set_solver.
      now rewrite Hocc. }
    split; [tauto|]. intros _. unfold pass_events.
    rewrite warnings_of_expected by exact Hnames.
    rewrite duplicates_named_fresh by set_solver.
    now rewrite Hocc.
  - destruct (pass_writes _ _ _ _ _ _ _ _ Hrun Hocc) as [Hw _].
    assert (writes_of name (pass_events spec entry_type np) <> []) as Hne.
    { intros Hnil. rewrite Hnil in Hw. discriminate Hw. }
    split; [split; [contradiction | discriminate] | contradiction].
Qed.

Lemma X13_written_iff_visited_witness :
  exists evs,
    [Wrote "CL_FOO"
       (GetHeader +:+ "<<unified-spec, Deprecated by>> version 3.0."
        +:+ GetFooter);
     Printed "Found 1 API enums, 0 newer than 1.0, 1 are deprecated."]
    = [] ++ evs
    /\ forall name,
         (writes_of name evs = []
          <-> List.filter (named name)
                (occurrences Registries.deprecated_enum "enum") = [])
         /\ (writes_of name evs = [] -> warnings_of name evs = 0).
Proof.
  apply (X13_written_iff_visited Registries.deprecated_enum "enum"
           ShortNote []).
  vm_compute. reflexivity.
Defined.

(** ** X15: how the two passes compose *)

(** X15: the run is the line that names the registry, then the command
    pass, then the enum pass, each pass doing what it does when started on
    its own.  When the command pass raises, the run raises with it and
    nothing of the enum pass happens; when the enum pass raises, the events
    of the command pass, its files among them, stay. *)
Theorem X15_main_composes specpath spec :
  main specpath spec
  = match process_xml spec "command" FullNote [] with
    | Raise e evs1 =>
        Raise e
          (Printed ("Generating version notes from: " +:+ specpath) :: evs1)
    | Ok evs1 =>
        match process_xml spec "enum" ShortNote [] with
        | Raise e evs2 =>
            Raise e
              (Printed ("Generating version notes from: " +:+ specpath)
               :: evs1 ++ evs2)
        | Ok evs2 =>
            Ok (Printed ("Generating version notes from: " +:+ specpath)
                :: evs1 ++ evs2)
        end
    end.
Proof.
  unfold main.
  rewrite (process_xml_shift spec "command" FullNote [_]).
  destruct (process_xml spec "command" FullNote []) as [evs1|e evs1];
    [|reflexivity].
  rewrite (process_xml_shift spec "enum" ShortNote (_ ++ _)).
  destruct (process_xml spec "enum" ShortNote []) as [evs2|e evs2];
    reflexivity.
Qed.

(** ** X16, X17: notes of deprecated symbols, from the comment on *)

(** X16: for a symbol whose name holds no double quote and an entry of a
    feature whose version [V] is not 1.0 and does not start with [cl_],
    when the only comment with the marker phrase among the symbol's groups
    is [deprecated in OpenCL D] or ends with a space and [deprecated in
    OpenCL D], [D] having no space in it, the note written says that the
    symbol is missing before [V] and deprecated by [D], in one sentence, in
    the full and in the short form, and the symbol counts as deprecated. *)
Theorem X16_missing_before_and_deprecated
    spec entry_type feature entry st name V comment D l1 l2 :
  quote_free name = true ->
  get entry "name" = Some name ->
  get feature "number" = Some V ->
  V <> "1.0" ->
  Py.first3 V <> "cl_" ->
  comments_of (categories spec entry_type name)
  = l1 ++ Some comment :: l2 ->
  marker_count (l1 ++ l2) = 0 ->
  ends_in_deprecation comment D ->
  one_word Py.space D = true ->
  (exists st',
      entry_body spec entry_type FullNote "feature" feature entry st
      = Ok st'
      /\ trace st'
         = trace st
           ++ [Wrote name
                 (GetHeader
                  +:+ (Py.nl +:+ "IMPORTANT: {" +:+ name
                       +:+ "} is <<unified-spec, missing before>> version "
                       +:+ V
                       +:+ " and <<unified-spec, deprecated by>> version "
                       +:+ D +:+ ".")
                  +:+ GetFooter)]
      /\ numberOfDeprecatedEntries st' = numberOfDeprecatedEntries st + 1)
  /\ (exists st',
         entry_body spec entry_type ShortNote "feature" feature entry st
         = Ok st'
         /\ trace st'
            = trace st
              ++ [Wrote name
                    (GetHeader
                     +:+ ("<<unified-spec, Missing before>> version " +:+ V
                          +:+ " and <<unified-spec, deprecated by>> version "
                          +:+ D +:+ ".")
                     +:+ GetFooter)]
         /\ numberOfDeprecatedEntries st' = numberOfDeprecatedEntries st + 1).
Proof.
  intros _ Hn HV H10 Hcl Hcomments Hcount Hshape HD.
  destruct (scan_comment_ends _ _ Hshape HD) as [Hscan _].
  pose proof (find_deprecated_by_sole _ _ _ _ _ _ _ Hcomments Hcount Hscan)
    as Hd.
  apply String.eqb_neq in H10, Hcl.
  split;
    refine (entry_body_feature spec entry_type _ feature entry st name
              (Some D) _ Hn Hd _);
    rewrite HV; unfold FullNote, ShortNote; now rewrite H10, Hcl.
Qed.

Lemma X16_missing_before_and_deprecated_witness :
  (exists st',
      entry_body Registries.deprecated_enum "enum" FullNote "feature"
        (Examples.feature "1.2" []) (Examples.sym "enum" "CL_FOO")
        (mkState ∅ 0 0 0 [])
      = Ok st'
      /\ trace st'
         = [] ++ [Wrote "CL_FOO"
                    (GetHeader
                     +:+ (Py.nl +:+ "IMPORTANT: {" +:+ "CL_FOO"
                          +:+ "} is <<unified-spec, missing before>> version "
                          +:+ "1.2"
                          +:+ " and <<unified-spec, deprecated by>> version "
                          +:+ "3.0" +:+ ".")
                     +:+ GetFooter)]
      /\ numberOfDeprecatedEntries st' = 0 + 1)
  /\ (exists st',
         entry_body Registries.deprecated_enum "enum" ShortNote "feature"
           (Examples.feature "1.2" []) (Examples.sym "enum" "CL_FOO")
           (mkState ∅ 0 0 0 [])
         = Ok st'
         /\ trace st'
            = [] ++ [Wrote "CL_FOO"
                       (GetHeader
                        +:+ ("<<unified-spec, Missing before>> version "
                             +:+ "1.2"
                             +:+ " and <<unified-spec, deprecated by>> version "
                             +:+ "3.0" +:+ ".")
                        +:+ GetFooter)]
         /\ numberOfDeprecatedEntries st' = 0 + 1).
Proof.
  apply (X16_missing_before_and_deprecated Registries.deprecated_enum "enum"
           (Examples.feature "1.2" []) (Examples.sym "enum" "CL_FOO")
           (mkState ∅ 0 0 0 []) "CL_FOO" "1.2"
           "enums that were deprecated in OpenCL 3.0" "3.0" [] []).
  - reflexivity.
  - reflexivity.
  - reflexivity.
  - discriminate.
  - vm_compute. discriminate.
  - vm_compute. reflexivity.
  - reflexivity.
  - right. exists "enums that were". reflexivity.
  - reflexivity.
Defined.

(** X17: for a symbol whose name holds no double quote and an entry of the
    feature 1.0, when the only comment with the marker phrase among the
    symbol's groups is [deprecated in OpenCL D] or ends with a space and
    [deprecated in OpenCL D], [D] having no space in it, the full-form note
    written is the [IMPORTANT] remark that the braced symbol is deprecated
    by version [D], and the short-form note is the same cross reference
    without keyword and symbol. *)
Theorem X17_deprecated_since_first_version
    spec entry_type feature entry st name comment D l1 l2 :
  quote_free name = true ->
  get entry "name" = Some name ->
  get feature "number" = Some "1.0" ->
  comments_of (categories spec entry_type name)
  = l1 ++ Some comment :: l2 ->
  marker_count (l1 ++ l2) = 0 ->
  ends_in_deprecation comment D ->
  one_word Py.space D = true ->
  (exists st',
      entry_body spec entry_type FullNote "feature" feature entry st
      = Ok st'
      /\ trace st'
         = trace st
           ++ [Wrote name
                 (GetHeader
                  +:+ (Py.nl +:+ "IMPORTANT: {" +:+ name
                       +:+ "} is <<unified-spec, deprecated by>> version "
                       +:+ D +:+ ".")
                  +:+ GetFooter)])
  /\ (exists st',
         entry_body spec entry_type ShortNote "feature" feature entry st
         = Ok st'
         /\ trace st'
            = trace st
              ++ [Wrote name
                    (GetHeader
                     +:+ ("<<unified-spec, Deprecated by>> version "
                          +:+ D +:+ ".")
                     +:+ GetFooter)]).
Proof.
  intros _ Hn HV Hcomments Hcount Hshape HD.
  destruct (scan_comment_ends _ _ Hshape HD) as [Hscan _].
  pose proof (find_deprecated_by_sole _ _ _ _ _ _ _ Hcomments Hcount Hscan)
    as Hd.
  split.
  - destruct (entry_body_feature spec entry_type FullNote feature entry st
                name (Some D) _ Hn Hd
                (f_equal (fun a => FullNote name a (Some D)) HV))
      as (st' & Hrun & Htr & _).
    eauto.
  - destruct (entry_body_feature spec entry_type ShortNote feature entry st
                name (Some D) _ Hn Hd
                (f_equal (fun a => ShortNote name a (Some D)) HV))
      as (st' & Hrun & Htr & _).
    eauto.
Qed.

Lemma X17_deprecated_since_first_version_witness :
  (exists st',
      entry_body Examples.small "command" FullNote "feature"
        (Examples.feature "1.0" [])
        (Examples.sym "command" "clSetCommandQueueProperty")
        (mkState ∅ 0 0 0 [])
      = Ok st'
      /\ trace st'
         = [] ++ [Wrote "clSetCommandQueueProperty"
                    (GetHeader
                     +:+ (Py.nl +:+ "IMPORTANT: {"
                          +:+ "clSetCommandQueueProperty"
                          +:+ "} is <<unified-spec, deprecated by>> version "
                          +:+ "1.1" +:+ ".")
                     +:+ GetFooter)])
  /\ (exists st',
         entry_body Examples.small "command" ShortNote "feature"
           (Examples.feature "1.0" [])
           (Examples.sym "command" "clSetCommandQueueProperty")
           (mkState ∅ 0 0 0 [])
         = Ok st'
         /\ trace st'
            = [] ++ [Wrote "clSetCommandQueueProperty"
                       (GetHeader
                        +:+ ("<<unified-spec, Deprecated by>> version "
                             +:+ "1.1" +:+ ".")
                        +:+ GetFooter)]).
Proof.
  apply (X17_deprecated_since_first_version Examples.small "command"
           (Examples.feature "1.0" [])
           (Examples.sym "command" "clSetCommandQueueProperty")
           (mkState ∅ 0 0 0 []) "clSetCommandQueueProperty"
           "OpenCL 1.0 APIs that were deprecated in OpenCL 1.1" "1.1" [] []).
  - reflexivity.
  - reflexivity.
  - reflexivity.
  - vm_compute. reflexivity.
  - reflexivity.
  - right. exists "OpenCL 1.0 APIs that were". reflexivity.
  - reflexivity.
Defined.

(** ** X18: the containers and entries the loops reach *)

Lemma iter_self (e : Element) : In e (iter e).
Proof. destruct e. now left. Qed.

Lemma in_descendants (t : string) (e c : Element) :
  In c (children e) -> tag c = t -> In c (descendants t e).
Proof.
  intros Hc Ht. unfold descendants. apply filter_In. split.
  - apply in_flat_map. exists c. split; [exact Hc | apply iter_self].
  - rewrite Ht. apply String.eqb_refl.
Qed.

Lemma iter_children (e c d : Element) :
  In c (children e) -> In d (iter c) -> In d (flat_map iter (children e)).
Proof. intros Hc Hd. apply in_flat_map. eauto. Qed.

(** X18: every container the loops select has the tag asked for and
    yields at least one entry, and every entry visited has the tag of the
    kind. *)
Theorem X18_containers_have_entries spec feature_type entry_type f :
  In f (containers spec feature_type entry_type) ->
  tag f = feature_type
  /\ entries f entry_type <> []
  /\ Forall (fun e => tag e = entry_type) (entries f entry_type).
Proof.
  unfold containers, entries. intros Hin.
  apply filter_In in Hin as [Hdesc Hsel]. split; [|split].
  - unfold descendants in Hdesc. apply filter_In in Hdesc as [_ Ht].
    now apply String.eqb_eq.
  - apply existsb_exists in Hsel as (r & Hr & Hne).
    unfold child_elems in Hr, Hne. apply filter_In in Hr as [Hr _].
    destruct (List.filter _ (children r)) as [|c cs] eqn:E;
      [discriminate Hne|].
    assert (In c (List.filter (fun c => String.eqb (tag c) entry_type)
                    (children r))) as Hc by (rewrite E; now left).
    apply filter_In in Hc as [Hc Ht].
    assert (In c (descendants entry_type f)) as Hd.
    { unfold descendants. apply filter_In. split; [|exact Ht].
      apply (iter_children f r c Hr).
      destruct r as [t a cs']. simpl in *. right.
      apply in_flat_map. exists c. split; [exact Hc | apply iter_self]. }
    intros Hnil. rewrite Hnil in Hd. destruct Hd.
  - apply List.Forall_forall. intros e He.
    unfold descendants in He. apply filter_In in He as [_ Ht].
    now apply String.eqb_eq.
Qed.

Lemma X18_containers_have_entries_witness :
  tag (Examples.feature "1.2"
         [Examples.require [Examples.sym "enum" "CL_DEPTH"]]) = "feature"
  /\ entries (Examples.feature "1.2"
                [Examples.require [Examples.sym "enum" "CL_DEPTH"]]) "enum"
     <> []
  /\ Forall (fun e => tag e = "enum")
       (entries (Examples.feature "1.2"
                   [Examples.require [Examples.sym "enum" "CL_DEPTH"]])
          "enum").
Proof.
  apply (X18_containers_have_entries Examples.small "feature" "enum").
  vm_compute. auto.
Defined.
